(** * Discord <-> Stoat bridge: a shallow embedding of [bridge.py]

    The development follows the layout of the source file:
    the Python values the program handles, the statements the module runs
    when it is loaded (the channel pair table and the two registries), the
    two message handlers [StoatBot.on_message_create] and
    [DiscordBot.on_message], and then the properties of the
    specification, one theorem per claim.

    Conventions of the embedding.
    - A Python [str] is a [string]: one cell of the string stands for one
      character, [len] is [String.length], [s[:n]] is [Py.slice_to n s].
    - A Python [int] is a [Z] (Discord snowflakes, parsed by [int(...)]).
    - A [dict] is a [gmap]; a dict comprehension inserts the pairs in
      iteration order, so a later pair overwrites an earlier one with the
      same key.
    - [None] is [None] of an [option]; truthiness ([if x], [x and y],
      [x or y]) is written out for each type it is used at. *)

From Stdlib Require Import ZArith String Ascii DecimalString.
From stdpp Require Import base option list gmap strings.

Local Open Scope Z_scope.
Local Open Scope string_scope.
Local Open Scope list_scope.

(** ** Python values *)

Module Py.

(** [str(n)] for an [int]: decimal digits, with a leading minus sign. *)
Definition str_int (z : Z) : string := NilZero.string_of_int (Z.to_int z).

(** [str(len(xs))]. *)
Definition str_len {A} (xs : list A) : string :=
  NilZero.string_of_uint (Nat.to_uint (length xs)).

(** [s[:n]] for a literal [n >= 0]: the first [n] characters, or the
    whole string when it is shorter. *)
Fixpoint slice_to (n : nat) (s : string) : string :=
  match n, s with
  | S n', String c s' => String c (slice_to n' s')
  | _, _ => ""
  end.

(** Truthiness of a [str]: the empty string is false. *)
Definition truthy_str (s : string) : bool :=
  match s with EmptyString => false | String _ _ => true end.

(** Truthiness of an [int]: zero is false. *)
Definition truthy_int (z : Z) : bool := negb (z =? 0)%Z.

(** [a or b] where [a : Optional[str]] and [b : str]. *)
Definition or_str (a : option string) (b : string) : string :=
  match a with
  | Some s => if truthy_str s then s else b
  | None => b
  end.

(** An instance of [Exception]: its class name and [str(e)].  The
    signals that derive from [BaseException] only (cancellation of a
    task, interpreter exit) are events of the runtime, not results of a
    call, and are not modelled. *)
Record exc := Exc {
  exc_class : string;
  exc_text : string
}.

Definition RuntimeError (msg : string) : exc := Exc "RuntimeError" msg.

End Py.

(** ** Handles held in the registries *)

(** [discord.Webhook]: the handler reads [wh.id] and calls [wh.send]. *)
Record Webhook := mkWebhook {
  wh_id : Z;
  wh_name : string
}.

(** A stoat channel object: the handler calls [ch.send]. *)
Record StoatChannel := mkStoatChannel {
  sc_id : string;
  sc_name : string
}.

(** ** Module-level statements (lines 68-86) *)

(** [{s: d for d, s in zip(DISCORD_CHANNEL_IDS, STOAT_CHANNEL_IDS)}] *)
Definition stoat_to_discord_comp (ds : list Z) (ss : list string) : gmap string Z :=
  foldl (λ m '(d, s), <[s := d]> m) ∅ (zip ds ss).

(** [{d: s for d, s in zip(DISCORD_CHANNEL_IDS, STOAT_CHANNEL_IDS)}] *)
Definition discord_to_stoat_comp (ds : list Z) (ss : list string) : gmap Z string :=
  foldl (λ m '(d, s), <[d := s]> m) ∅ (zip ds ss).

(** The names the module binds, in the order it binds them.  A name that
    no statement has assigned yet is [None]. *)
Record module_ns := mkNs {
  ns_PAIR_COUNT : option nat;
  ns_STOAT_TO_DISCORD : option (gmap string Z);
  ns_DISCORD_TO_STOAT : option (gmap Z string);
  ns_discord_webhooks : option (gmap Z Webhook);
  ns_stoat_channels : option (gmap string StoatChannel)
}.

Definition ns_unbound : module_ns := mkNs None None None None None.

Definition length_mismatch_msg (ds : list Z) (ss : list string) : string :=
  "Channel list length mismatch: " +:+ Py.str_len ds +:+ " Discord IDs vs "
    +:+ Py.str_len ss +:+ " Stoat IDs.".

(** Running the module body on the two parsed id lists: the namespace
    reached, and the exception that stopped the run, if any. *)
Definition exec_module (DISCORD_CHANNEL_IDS : list Z) (STOAT_CHANNEL_IDS : list string)
  : module_ns * option Py.exc :=
  let ns := ns_unbound in
  if negb (length DISCORD_CHANNEL_IDS =? length STOAT_CHANNEL_IDS)%nat then
    (ns, Some (Py.RuntimeError (length_mismatch_msg DISCORD_CHANNEL_IDS STOAT_CHANNEL_IDS)))
  else
    let ns := mkNs (Some (length DISCORD_CHANNEL_IDS))
                (ns_STOAT_TO_DISCORD ns) (ns_DISCORD_TO_STOAT ns)
                (ns_discord_webhooks ns) (ns_stoat_channels ns) in
    let ns := mkNs (ns_PAIR_COUNT ns)
                (Some (stoat_to_discord_comp DISCORD_CHANNEL_IDS STOAT_CHANNEL_IDS))
                (ns_DISCORD_TO_STOAT ns)
                (ns_discord_webhooks ns) (ns_stoat_channels ns) in
    let ns := mkNs (ns_PAIR_COUNT ns) (ns_STOAT_TO_DISCORD ns)
                (Some (discord_to_stoat_comp DISCORD_CHANNEL_IDS STOAT_CHANNEL_IDS))
                (ns_discord_webhooks ns) (ns_stoat_channels ns) in
    let ns := mkNs (ns_PAIR_COUNT ns) (ns_STOAT_TO_DISCORD ns) (ns_DISCORD_TO_STOAT ns)
                (Some ∅) (ns_stoat_channels ns) in
    let ns := mkNs (ns_PAIR_COUNT ns) (ns_STOAT_TO_DISCORD ns) (ns_DISCORD_TO_STOAT ns)
                (ns_discord_webhooks ns) (Some ∅) in
    (ns, None).

(** The globals the handlers read, once the module has loaded. *)
Record globals := mkGlobals {
  PAIR_COUNT : nat;
  STOAT_TO_DISCORD : gmap string Z;
  DISCORD_TO_STOAT : gmap Z string;
  discord_webhooks : gmap Z Webhook;
  stoat_channels : gmap string StoatChannel
}.

Definition globals_of (ns : module_ns) : option globals :=
  n ← ns_PAIR_COUNT ns;
  s2d ← ns_STOAT_TO_DISCORD ns;
  d2s ← ns_DISCORD_TO_STOAT ns;
  whs ← ns_discord_webhooks ns;
  chs ← ns_stoat_channels ns;
  Some (mkGlobals n s2d d2s whs chs).

(** The pair table lookups: [k in table] and [table[k]] together. *)
Definition resolve_to_stoat (g : globals) (discord_id : Z) : option string :=
  DISCORD_TO_STOAT g !! discord_id.

Definition resolve_to_discord (g : globals) (stoat_id : string) : option Z :=
  STOAT_TO_DISCORD g !! stoat_id.

(** ** Inbound events *)

Module Stoat.

(** [stoat.Asset]: the handler calls [avatar.url()]. *)
Record Asset := mkAsset { url : string }.

(** [msg.author]: [display_name] may be [None]; [name] is always set. *)
Record User := mkUser {
  display_name : option string;
  name : string;
  avatar : option Asset
}.

(** [event.message], with [msg.channel.id] as [channel_id]. *)
Record Message := mkMessage {
  author_id : string;
  channel_id : string;
  content : string;
  author : User
}.

Record MessageCreateEvent := mkEvent { message : Message }.

(** [StoatBot]: the handler reads [self.me.id]. *)
Record Client := mkClient { me_id : string }.

(** [stoat.Masquerade(name=..., avatar=...)] *)
Record Masquerade := mkMasquerade {
  masq_name : string;
  masq_avatar : string
}.

End Stoat.

Module Discord.

(** [discord.Asset]: the handler reads [str(asset.url)]. *)
Record Asset := mkAsset { url : string }.

(** [message.author]: [avatar] is [None] when the user has set none;
    [default_avatar] is always there. *)
Record User := mkUser {
  id : Z;
  display_name : string;
  avatar : option Asset;
  default_avatar : Asset
}.

(** [discord.Message], with [message.channel.id] as [channel_id]. *)
Record Message := mkMessage {
  webhook_id : option Z;
  channel_id : Z;
  content : string;
  author : User
}.

(** [DiscordBot]: [self.user] is the bot's own account. *)
Record Bot := mkBot { user_id : Z }.

End Discord.

(** ** Effects of a handler *)

Inductive log_level := INFO | WARNING | ERROR.

(** The two outbound calls, with the keyword arguments they are given. *)
Inductive send_call :=
| webhook_send (webhook : Webhook) (content username : string)
    (avatar_url : option string) (wait : bool)
| channel_send (ch : StoatChannel) (content : string)
    (masquerade : Stoat.Masquerade).

(** What a run leaves behind, in the order it happens: log records, reads
    of the two registries, and outbound calls. *)
Inductive effect :=
| Log (lvl : log_level) (msg : string)
| WebhooksGet (key : Z)
| WebhooksValues
| StoatChannelsGet (key : string)
| Send (c : send_call).

(** The remote side of an outbound call: [None] when the call returns,
    [Some e] when it raises [e]. *)
Definition network := send_call → option Py.exc.

Inductive outcome (A : Type) :=
| Returned (a : A)
| Raised (e : Py.exc).
Arguments Returned {A} a.
Arguments Raised {A} e.

(** A computation reads the network, threads the module globals and
    appends to the trace. *)
Definition M (A : Type) : Type :=
  network → globals → outcome A * globals * list effect.

#[global] Instance M_ret : MRet M := λ A a _ g, (Returned a, g, []).

#[global] Instance M_bind : MBind M := λ A B f m net g,
  match m net g with
  | (Returned a, g1, t1) =>
      match f a net g1 with (r, g2, t2) => (r, g2, t1 ++ t2) end
  | (Raised e, g1, t1) => (Raised e, g1, t1)
  end.

Definition read_globals : M globals := λ _ g, (Returned g, g, []).

Definition emit (e : effect) : M unit := λ _ g, (Returned tt, g, [e]).

(** [try: body / except Exception as e: handler e] *)
Definition try_except {A} (body : M A) (handler : Py.exc → M A) : M A :=
  λ net g,
    match body net g with
    | (Raised e, g1, t1) =>
        match handler e net g1 with (r, g2, t2) => (r, g2, t1 ++ t2) end
    | r => r
    end.

(** [logger.warning(msg)], [logger.error(msg)] *)
Definition logger (lvl : log_level) (msg : string) : M unit := emit (Log lvl msg).

(** [discord_webhooks.get(key)] *)
Definition discord_webhooks_get (key : Z) : M (option Webhook) :=
  g ← read_globals; emit (WebhooksGet key);; mret (discord_webhooks g !! key).

(** [{wh.id for wh in discord_webhooks.values()}] *)
Definition discord_webhook_ids : M (gset Z) :=
  g ← read_globals; emit WebhooksValues;;
  mret (list_to_set (wh_id <$> (snd <$> map_to_list (discord_webhooks g)))).

(** [stoat_channels.get(key)] *)
Definition stoat_channels_get (key : string) : M (option StoatChannel) :=
  g ← read_globals; emit (StoatChannelsGet key);; mret (stoat_channels g !! key).

(** [await webhook.send(...)], [await ch.send(...)] *)
Definition await_send (c : send_call) : M unit :=
  λ net g,
    match net c with
    | None => (Returned tt, g, [Send c])
    | Some e => (Raised e, g, [Send c])
    end.

(** ** [StoatBot.on_message_create] (lines 104-137) *)

Definition on_message_create (self : Stoat.Client) (event : Stoat.MessageCreateEvent)
  : M unit :=
  let msg := Stoat.message event in
  if bool_decide (Stoat.author_id msg = Stoat.me_id self) then mret tt else
  let stoat_id := Stoat.channel_id msg in
  g ← read_globals;
  match STOAT_TO_DISCORD g !! stoat_id with
  | None => mret tt
  | Some discord_id =>
    if negb (Py.truthy_str (Stoat.content msg)) then mret tt else
    webhook ← discord_webhooks_get discord_id;
    match webhook with
    | None =>
        logger WARNING
          ("Stoat -> Discord: dropped (webhook for Discord channel "
             +:+ Py.str_int discord_id +:+ " not ready)")
    | Some webhook =>
        let author_name :=
          Py.or_str (Stoat.display_name (Stoat.author msg))
                    (Stoat.name (Stoat.author msg)) in
        let avatar := Stoat.avatar (Stoat.author msg) in
        let avatar_url :=
          match avatar with Some a => Some (Stoat.url a) | None => None end in
        try_except
          (await_send
             (webhook_send webhook
                (Py.slice_to 2000 (Stoat.content msg))
                (Py.slice_to 80 author_name)
                avatar_url
                true))
          (λ e, logger ERROR
                  ("Stoat -> Discord (channel " +:+ Py.str_int discord_id
                     +:+ "): " +:+ Py.exc_text e))
    end
  end.

(** ** [DiscordBot.on_message] (lines 184-217) *)

(** The condition of line 185,
    [message.webhook_id and message.webhook_id in {wh.id for wh in ...}]:
    the set is only built when [message.webhook_id] is truthy. *)
Definition from_own_webhook (message : Discord.Message) : M bool :=
  match Discord.webhook_id message with
  | Some w =>
      if Py.truthy_int w then
        ids ← discord_webhook_ids; mret (bool_decide (w ∈ ids))
      else mret false
  | None => mret false
  end.

Definition on_message (self : Discord.Bot) (message : Discord.Message) : M unit :=
  echo ← from_own_webhook message;
  if (echo : bool) then mret tt else
  let discord_id := Discord.channel_id message in
  g ← read_globals;
  match DISCORD_TO_STOAT g !! discord_id with
  | None => mret tt
  | Some stoat_id =>
    if negb (Py.truthy_str (Discord.content message)) then mret tt else
    ch ← stoat_channels_get stoat_id;
    match ch with
    | None =>
        logger WARNING
          ("Discord -> Stoat: dropped (Stoat channel " +:+ stoat_id +:+ " not ready)")
    | Some ch =>
        let avatar_url :=
          match Discord.avatar (Discord.author message) with
          | Some a => Discord.url a
          | None => Discord.url (Discord.default_avatar (Discord.author message))
          end in
        try_except
          (await_send
             (channel_send ch
                (Py.slice_to 2000 (Discord.content message))
                (Stoat.mkMasquerade
                   (Py.slice_to 32 (Discord.display_name (Discord.author message)))
                   avatar_url)))
          (λ e, logger ERROR
                  ("Discord -> Stoat (channel " +:+ stoat_id +:+ "): "
                     +:+ Py.exc_text e))
    end
  end.

(** ** Reading a run *)

Definition run {A} (m : M A) (net : network) (g : globals)
  : outcome A * globals * list effect := m net g.

Definition result_of {A} (r : outcome A * globals * list effect) : outcome A := r.1.1.
Definition globals_after {A} (r : outcome A * globals * list effect) : globals := r.1.2.
Definition trace_of {A} (r : outcome A * globals * list effect) : list effect := r.2.

(** The outbound calls of a trace, in order. *)
Definition sends (t : list effect) : list send_call :=
  omap (λ e, match e with Send c => Some c | _ => None end) t.

#[global] Instance log_level_eq_dec : EqDecision log_level.
Proof. solve_decision. Defined.

(** The log records of a trace at one level. *)
Definition logs (lvl : log_level) (t : list effect) : list string :=
  omap (λ e, match e with
             | Log l msg => if decide (l = lvl) then Some msg else None
             | _ => None
             end) t.

Inductive registry := DiscordWebhooks | StoatChannels.

(** Whether an effect is a read of the given registry. *)
Definition reads_registry (r : registry) (e : effect) : bool :=
  match e, r with
  | WebhooksGet _, DiscordWebhooks
  | WebhooksValues, DiscordWebhooks
  | StoatChannelsGet _, StoatChannels => true
  | _, _ => false
  end.

(** The reads of one registry in a trace. *)
Definition reads (r : registry) (t : list effect) : list effect :=
  List.filter (reads_registry r) t.

(** ** Vocabulary of the specification *)

(** [t] is [s] cut to at most [n] characters: a prefix of [s], of length
    [n] when [s] is longer and all of [s] otherwise. *)
Definition truncated_to (n : nat) (s t : string) : Prop :=
  String.length t = Nat.min n (String.length s) ∧ ∃ rest, s = t +:+ rest.

(** [w] is the id of a webhook that the bridge holds in its registry. *)
Definition registered_webhook_id (g : globals) (w : Z) : Prop :=
  ∃ k wh, discord_webhooks g !! k = Some wh ∧ wh_id wh = w.

(** Discord identifiers are snowflakes, and no snowflake is 0.  The
    webhook registry is only written at lines 167 and 175, with a webhook
    Discord has listed or created, so no webhook in it has the id 0. *)
Definition registry_ids_nonzero (g : globals) : Prop :=
  ∀ k wh, discord_webhooks g !! k = Some wh → wh_id wh ≠ 0.

(** The Discord message is one that line 185 drops: it carries a webhook
    id that Python takes as true (an id other than 0) and that is
    registered. *)
Definition dropped_as_own_webhook (g : globals) (message : Discord.Message) : Prop :=
  ∃ w, Discord.webhook_id message = Some w ∧ w ≠ 0 ∧ registered_webhook_id g w.

(** The name a Stoat author is shown under: [display_name or name]. *)
Definition stoat_author_name (u : Stoat.User) : string :=
  Py.or_str (Stoat.display_name u) (Stoat.name u).

(** A copy of a Discord message under another author id. *)
Definition with_author_id (a : Z) (m : Discord.Message) : Discord.Message :=
  Discord.mkMessage (Discord.webhook_id m) (Discord.channel_id m) (Discord.content m)
    (Discord.mkUser a (Discord.display_name (Discord.author m))
       (Discord.avatar (Discord.author m)) (Discord.default_avatar (Discord.author m))).

(** The avatar URL of a Discord user: the user's own avatar, or the
    default avatar Discord gives to a user who has set none. *)
Definition discord_avatar_url (u : Discord.User) : string :=
  match Discord.avatar u with
  | Some a => Discord.url a
  | None => Discord.url (Discord.default_avatar u)
  end.

(** The outbound call of a relayed Stoat message, to webhook [wh]. *)
Definition stoat_outbound (wh : Webhook) (msg : Stoat.Message) : send_call :=
  webhook_send wh
    (Py.slice_to 2000 (Stoat.content msg))
    (Py.slice_to 80 (stoat_author_name (Stoat.author msg)))
    (Stoat.url <$> Stoat.avatar (Stoat.author msg))
    true.

(** The outbound call of a relayed Discord message, to channel [ch]. *)
Definition discord_outbound (ch : StoatChannel) (message : Discord.Message) : send_call :=
  channel_send ch
    (Py.slice_to 2000 (Discord.content message))
    (Stoat.mkMasquerade
       (Py.slice_to 32 (Discord.display_name (Discord.author message)))
       (discord_avatar_url (Discord.author message))).

(** The registry reads of line 185: the webhook registry is scanned only
    when the message carries a webhook id that Python takes as true. *)
Definition echo_reads (message : Discord.Message) : list effect :=
  match Discord.webhook_id message with
  | Some w => if Py.truthy_int w then [WebhooksValues] else []
  | None => []
  end.

(** An inbound event of either platform, with the client that receives
    it, and the handler its runtime calls. *)
Inductive inbound :=
| StoatMessage (self : Stoat.Client) (event : Stoat.MessageCreateEvent)
| DiscordMessage (self : Discord.Bot) (message : Discord.Message).

Definition handle (i : inbound) : M unit :=
  match i with
  | StoatMessage self event => on_message_create self event
  | DiscordMessage self message => on_message self message
  end.

(** ** Loading and sample data *)

(** The globals after the module body has run to its end, if it has. *)
Definition load_module (ds : list Z) (ss : list string) : option globals :=
  globals_of (exec_module ds ss).1.

(** The same globals with other registries.  The registries are filled
    after loading, by [StoatBot.on_ready] and
    [DiscordBot._setup_webhooks]; the properties below hold for any
    content of the registries. *)
Definition with_registries (g : globals) (whs : gmap Z Webhook)
    (chs : gmap string StoatChannel) : globals :=
  mkGlobals (PAIR_COUNT g) (STOAT_TO_DISCORD g) (DISCORD_TO_STOAT g) whs chs.

Module Samples.

(** One pair, Discord channel 10 with Stoat channel [st1], both send
    targets ready. *)
Definition ready : globals :=
  mkGlobals 1 {["st1" := 10]} {[10 := "st1"]}
    {[10 := mkWebhook 77 "Stoat Bridge"]}
    {["st1" := mkStoatChannel "st1" "general"]}.

(** The same pair before either setup routine has stored anything. *)
Definition not_ready : globals := with_registries ready ∅ ∅.

Definition net_ok : network := λ _, None.
Definition net_down : network :=
  λ _, Some (Py.Exc "HTTPException" "503 Service Unavailable").

Definition stoat_bot : Stoat.Client := Stoat.mkClient "BOT".
Definition discord_bot : Discord.Bot := Discord.mkBot 500.

Definition alice : Stoat.User := Stoat.mkUser None "alice" None.
Definition bob : Discord.User :=
  Discord.mkUser 42 "bob" None (Discord.mkAsset "https://cdn.example/embed/avatars/0.png").
(** The Discord bot's own account as the author of a message. *)
Definition bot_account : Discord.User :=
  Discord.mkUser 500 "bridge" None (Discord.mkAsset "https://cdn.example/embed/avatars/1.png").

Definition stoat_msg (author_id channel content : string) : Stoat.MessageCreateEvent :=
  Stoat.mkEvent (Stoat.mkMessage author_id channel content alice).

Definition discord_msg (webhook_id : option Z) (channel : Z) (content : string)
    (author : Discord.User) : Discord.Message :=
  Discord.mkMessage webhook_id channel content author.

(** [c * n] *)
Fixpoint repeat_char (c : ascii) (n : nat) : string :=
  match n with O => "" | S n' => String c (repeat_char c n') end.

End Samples.

(** * The rest of the program *)

(** ** String methods used by the configuration *)

Module PyStr.

Section whitespace.
(** [c.isspace()] for one character. *)
Variable isspace : ascii → bool.

(** [s.lstrip()] *)
Fixpoint lstrip (s : string) : string :=
  match s with
  | String c s' => if isspace c then lstrip s' else s
  | EmptyString => ""
  end.

(** [s.rstrip()] *)
Fixpoint rstrip (s : string) : string :=
  match s with
  | String c s' =>
      match rstrip s' with
      | EmptyString => if isspace c then "" else String c ""
      | r => String c r
      end
  | EmptyString => ""
  end.

(** [s.strip()] *)
Definition strip (s : string) : string := rstrip (lstrip s).
End whitespace.

(** [s.split(sep)] for a separator of one character: the pieces between
    the separators, in order; the empty string gives one empty piece. *)
Fixpoint split (sep : ascii) (s : string) : list string :=
  match s with
  | EmptyString => [""]
  | String c s' =>
      if Ascii.eqb c sep then "" :: split sep s'
      else match split sep s' with
           | piece :: pieces => String c piece :: pieces
           | [] => [String c ""]
           end
  end.

(** [str.isspace] on the characters below 256: the ASCII white space, the
    four separators 28-31, NEL (133) and the no-break space (160). *)
Definition isspace_latin1 (c : ascii) : bool :=
  let n := nat_of_ascii c in
  ((9 <=? n) && (n <=? 13) || (28 <=? n) && (n <=? 32)
   || (n =? 133) || (n =? 160))%nat.

End PyStr.

(** ** Configuration (lines 36-44) *)

(** The constants the module reads from the environment. *)
Record config := mkConfig {
  DISCORD_BOT_TOKEN : string;
  STOAT_BOT_TOKEN : string;
  DISCORD_CHANNEL_IDS : list Z;
  STOAT_CHANNEL_IDS : list string
}.

(** [None.split]: what line 43 or 44 raises when the variable is unset. *)
Definition none_has_no_split : Py.exc :=
  Py.Exc "AttributeError" "'NoneType' object has no attribute 'split'".

Section configuration.
(** The two builtins the comprehensions call: [str.isspace] of a
    character, and [int] of a string, which gives the integer or raises
    a [ValueError]. *)
Variable isspace : ascii → bool.
Variable py_int : string → Py.exc + Z.

(** [[x.strip() for x in raw.split(",") if x.strip()]] *)
Definition stoat_ids_of (raw : string) : list string :=
  List.map (PyStr.strip isspace)
    (List.filter (λ x, Py.truthy_str (PyStr.strip isspace x)) (PyStr.split "," raw)).

(** [[int(x.strip()) for x in xs if x.strip()]]: the first [int] that
    raises stops the comprehension. *)
Fixpoint ints_of (xs : list string) : Py.exc + list Z :=
  match xs with
  | [] => inr []
  | x :: xs' =>
      if Py.truthy_str (PyStr.strip isspace x) then
        match py_int (PyStr.strip isspace x) with
        | inl e => inl e
        | inr z =>
            match ints_of xs' with
            | inl e => inl e
            | inr zs => inr (z :: zs)
            end
        end
      else ints_of xs'
  end.

Definition discord_ids_of (raw : string) : Py.exc + list Z :=
  ints_of (PyStr.split "," raw).

(** Lines 36-44 on the process environment [os.environ] (after
    [load_dotenv()]): the constants, or the exception that stops the
    module. *)
Definition exec_config (environ : gmap string string) : Py.exc + config :=
  let discord_bot_token := default "" (environ !! "DISCORD_BOT_TOKEN") in
  let stoat_bot_token := default "" (environ !! "STOAT_BOT_TOKEN") in
  let _discord_raw := environ !! "DISCORD_CHANNEL_IDS" in
  let _stoat_raw := environ !! "STOAT_CHANNEL_IDS" in
  match _discord_raw with
  | None => inl none_has_no_split
  | Some discord_raw =>
      match discord_ids_of discord_raw with
      | inl e => inl e
      | inr discord_channel_ids =>
          match _stoat_raw with
          | None => inl none_has_no_split
          | Some stoat_raw =>
              inr (mkConfig discord_bot_token stoat_bot_token
                     discord_channel_ids (stoat_ids_of stoat_raw))
          end
      end
  end.

(** Lines 36-86: the configuration, then the pair table. *)
Definition exec_script (environ : gmap string string) : Py.exc + config * globals :=
  match exec_config environ with
  | inl e => inl e
  | inr cfg =>
      match exec_module (DISCORD_CHANNEL_IDS cfg) (STOAT_CHANNEL_IDS cfg) with
      | (_, Some e) => inl e
      | (ns, None) =>
          match globals_of ns with
          | Some g => inr (cfg, g)
          | None => inl (Py.Exc "NameError" "name 'PAIR_COUNT' is not defined")
          end
      end
  end.
End configuration.

(** ** [main], up to the start of the two clients (lines 223-229) *)

Definition raise {A} (e : Py.exc) : M A := λ _ g, (Raised e, g, []).

(** [for x in xs: body x] *)
Fixpoint for_each {A} (xs : list A) (body : A → M unit) : M unit :=
  match xs with
  | [] => mret tt
  | x :: xs' => body x;; for_each xs' body
  end.

(** [enumerate(xs, start)] *)
Definition enumerate {A} (xs : list A) (start : nat) : list (nat * A) :=
  zip (seq start (length xs)) xs.

(** The dash in this message and in the error records of the setup
    routines is U+2013; a string holds its three UTF-8 bytes. *)
Definition missing_configuration : Py.exc :=
  Py.RuntimeError "Missing configuration – check your .env file.".

Definition pair_line (i : nat) (d : Z) (s : string) : string :=
  "  Pair " +:+ Py.str_int (Z.of_nat i) +:+ ": Discord " +:+ Py.str_int d
    +:+ " <-> Stoat " +:+ s.

(** [main] before [asyncio.gather]: the check of the configuration and
    the log of the pairs.  Starting the two clients is outside the model. *)
Definition main_startup (cfg : config) : M unit :=
  if negb (Py.truthy_str (DISCORD_BOT_TOKEN cfg) && Py.truthy_str (STOAT_BOT_TOKEN cfg)
           && negb (bool_decide (DISCORD_CHANNEL_IDS cfg = []))
           && negb (bool_decide (STOAT_CHANNEL_IDS cfg = [])))
  then raise missing_configuration
  else
    g ← read_globals;
    logger INFO ("Bridge starting with " +:+ Py.str_int (Z.of_nat (PAIR_COUNT g))
                   +:+ " channel pair(s)...");;
    for_each (enumerate (zip (DISCORD_CHANNEL_IDS cfg) (STOAT_CHANNEL_IDS cfg)) 1)
      (λ '(i, (d, s)), logger INFO (pair_line i d s)).

(** ** The setup routines *)

(** A Discord channel object: the routine calls [channel.webhooks()] and
    [channel.create_webhook(...)] on it. *)
Record DiscordChannel := mkDiscordChannel { dc_id : Z }.

(** A webhook as [channel.webhooks()] lists it: the object, and the id of
    [wh.user], the account that made it, when Discord tells. *)
Record ListedWebhook := mkListed {
  lw_webhook : Webhook;
  lw_user : option Z
}.

(** What a setup routine leaves behind, in the order it happens: log
    records, and the calls into the two client libraries with what they
    gave, a value or the exception raised. *)
Inductive api_event :=
| ApiLog (lvl : log_level) (msg : string)
| StoatFetchChannel (stoat_id : string) (r : Py.exc + StoatChannel)
| GetChannel (discord_id : Z) (r : option DiscordChannel)
| FetchChannel (discord_id : Z) (r : Py.exc + DiscordChannel)
| Webhooks (channel : DiscordChannel) (r : Py.exc + list ListedWebhook)
| CreateWebhook (channel : DiscordChannel) (name : string) (r : Py.exc + Webhook).

(** The two platforms as the routines see them.  An answer may depend on
    everything that happened before the call. *)
Record platform := mkPlatform {
  str_me : string;
  str_user : string;
  stoat_fetch_channel : list api_event → string → Py.exc + StoatChannel;
  discord_get_channel : list api_event → Z → option DiscordChannel;
  discord_fetch_channel : list api_event → Z → Py.exc + DiscordChannel;
  channel_webhooks : list api_event → DiscordChannel → Py.exc + list ListedWebhook;
  channel_create_webhook :
    list api_event → DiscordChannel → string → Py.exc + Webhook
}.

(** A setup computation reads the platform and threads the module globals
    and the history of events. *)
Definition Setup (A : Type) : Type :=
  platform → globals * list api_event → outcome A * (globals * list api_event).

#[global] Instance Setup_ret : MRet Setup := λ A a _ st, (Returned a, st).

#[global] Instance Setup_bind : MBind Setup := λ A B f m p st,
  match m p st with
  | (Returned a, st1) => f a p st1
  | (Raised e, st1) => (Raised e, st1)
  end.

Definition ask_platform : Setup platform := λ p st, (Returned p, st).

Definition setup_globals : Setup globals := λ _ st, (Returned st.1, st).

(** [try: body / except Exception as e: handler e] *)
Definition setup_try {A} (body : Setup A) (handler : Py.exc → Setup A) : Setup A :=
  λ p st,
    match body p st with
    | (Raised e, st1) => handler e p st1
    | r => r
    end.

(** A call that may raise: the event is recorded with its answer. *)
Definition api_call {A} (answer : platform → list api_event → Py.exc + A)
    (event : Py.exc + A → api_event) : Setup A :=
  λ p '(g, h),
    match answer p h with
    | inr a => (Returned a, (g, h ++ [event (inr a)]))
    | inl e => (Raised e, (g, h ++ [event (inl e)]))
    end.

Definition api_log (lvl : log_level) (msg : string) : Setup unit :=
  λ _ '(g, h), (Returned tt, (g, h ++ [ApiLog lvl msg])).

(** [self.get_channel(discord_id)]: a look into the cache, never raises. *)
Definition api_get_channel (discord_id : Z) : Setup (option DiscordChannel) :=
  λ p '(g, h),
    let r := discord_get_channel p h discord_id in
    (Returned r, (g, h ++ [GetChannel discord_id r])).

(** The globals after [stoat_channels[stoat_id] = ch]. *)
Definition store_stoat_channel (stoat_id : string) (ch : StoatChannel)
    (g : globals) : globals :=
  mkGlobals (PAIR_COUNT g) (STOAT_TO_DISCORD g) (DISCORD_TO_STOAT g)
    (discord_webhooks g) (<[stoat_id := ch]> (stoat_channels g)).

(** The globals after [discord_webhooks[discord_id] = wh]. *)
Definition store_discord_webhook (discord_id : Z) (wh : Webhook)
    (g : globals) : globals :=
  mkGlobals (PAIR_COUNT g) (STOAT_TO_DISCORD g) (DISCORD_TO_STOAT g)
    (<[discord_id := wh]> (discord_webhooks g)) (stoat_channels g).

(** [stoat_channels[stoat_id] = ch] *)
Definition stoat_channels_set (stoat_id : string) (ch : StoatChannel) : Setup unit :=
  λ _ '(g, h), (Returned tt, (store_stoat_channel stoat_id ch g, h)).

(** [discord_webhooks[discord_id] = wh] *)
Definition discord_webhooks_set (discord_id : Z) (wh : Webhook) : Setup unit :=
  λ _ '(g, h), (Returned tt, (store_discord_webhook discord_id wh g, h)).

(** [for x in xs: body x] *)
Fixpoint setup_for {A} (xs : list A) (body : A → Setup unit) : Setup unit :=
  match xs with
  | [] => mret tt
  | x :: xs' => body x;; setup_for xs' body
  end.

Module StoatBot.

(** The body of the loop of [on_ready] (lines 97-102). *)
Definition fetch_one (stoat_id : string) : Setup unit :=
  setup_try
    (ch ← api_call (λ p h, stoat_fetch_channel p h stoat_id)
                   (StoatFetchChannel stoat_id);
     stoat_channels_set stoat_id ch;;
     api_log INFO ("Stoat: listening in #" +:+ sc_name ch +:+ " (id=" +:+ stoat_id
                     +:+ ")"))
    (λ e, api_log ERROR ("Stoat: could not fetch channel " +:+ stoat_id +:+ " – "
                           +:+ Py.exc_text e)).

(** [StoatBot.on_ready] (lines 94-102); the ready event it is passed is
    not used. *)
Definition on_ready (self : Stoat.Client) (cfg : config) : Setup unit :=
  p ← ask_platform;
  api_log INFO ("Stoat: connected as " +:+ str_me p);;
  setup_for (STOAT_CHANNEL_IDS cfg) fetch_one.

End StoatBot.

Module DiscordBot.

(** [wh.user == self.user] *)
Definition own_webhook (self : Discord.Bot) (wh : ListedWebhook) : bool :=
  bool_decide (lw_user wh = Some (Discord.user_id self)).

(** [self.get_channel(discord_id) or await self.fetch_channel(discord_id)]
    (lines 160-163): the cached channel if there is one, else a fetch. *)
Definition get_or_fetch_channel (discord_id : Z) : Setup DiscordChannel :=
  cached ← api_get_channel discord_id;
  match cached with
  | Some channel => mret channel
  | None => api_call (λ p h, discord_fetch_channel p h discord_id)
                     (FetchChannel discord_id)
  end.

(** Lines 165-176.  The [for ... else] creates a webhook exactly when the
    loop over the listed webhooks ends without a [break], that is when
    none of them is the bot's own; otherwise the first one that is the
    bot's own is stored. *)
Definition reuse_or_create (self : Discord.Bot) (discord_id : Z)
    (channel : DiscordChannel) : Setup unit :=
  listed ← api_call (λ p h, channel_webhooks p h channel) (Webhooks channel);
  match List.find (own_webhook self) listed with
  | Some wh =>
      discord_webhooks_set discord_id (lw_webhook wh);;
      api_log INFO ("Discord: reusing webhook '" +:+ wh_name (lw_webhook wh)
                      +:+ "' for channel " +:+ Py.str_int discord_id)
  | None =>
      wh ← api_call (λ p h, channel_create_webhook p h channel "Stoat Bridge")
                    (CreateWebhook channel "Stoat Bridge");
      discord_webhooks_set discord_id wh;;
      api_log INFO ("Discord: created webhook for channel "
                      +:+ Py.str_int discord_id)
  end.

(** The body of the loop of [_setup_webhooks] (lines 159-178). *)
Definition setup_one (self : Discord.Bot) (discord_id : Z) : Setup unit :=
  setup_try
    (channel ← get_or_fetch_channel discord_id;
     reuse_or_create self discord_id channel)
    (λ e, api_log ERROR ("Discord: could not set up webhook for channel "
                           +:+ Py.str_int discord_id +:+ " – " +:+ Py.exc_text e)).

(** [DiscordBot._setup_webhooks] (lines 155-178), once
    [wait_until_ready()] has returned. *)
Definition _setup_webhooks (self : Discord.Bot) (cfg : config) : Setup unit :=
  setup_for (DISCORD_CHANNEL_IDS cfg) (setup_one self).

(** [DiscordBot.on_ready] (lines 180-182) *)
Definition on_ready (self : Discord.Bot) : Setup unit :=
  p ← ask_platform;
  g ← setup_globals;
  api_log INFO ("Discord: connected as " +:+ str_user p);;
  api_log INFO ("Discord: bridging " +:+ Py.str_int (Z.of_nat (PAIR_COUNT g))
                  +:+ " channel pair(s)").

End DiscordBot.

(** ** Reading a setup run *)

Definition setup_run {A} (m : Setup A) (p : platform) (g : globals)
    (h : list api_event) : outcome A * (globals * list api_event) := m p (g, h).

(** The log records of a history at one level. *)
Definition api_logs (lvl : log_level) (h : list api_event) : list string :=
  omap (λ e, match e with
             | ApiLog l msg => if decide (l = lvl) then Some msg else None
             | _ => None
             end) h.

(** The second globals differ from the first at most in the registry of
    Stoat channels (resp. of webhooks). *)
Definition same_but_stoat_channels (g g' : globals) : Prop :=
  PAIR_COUNT g' = PAIR_COUNT g ∧ STOAT_TO_DISCORD g' = STOAT_TO_DISCORD g ∧
  DISCORD_TO_STOAT g' = DISCORD_TO_STOAT g ∧ discord_webhooks g' = discord_webhooks g.

Definition same_but_discord_webhooks (g g' : globals) : Prop :=
  PAIR_COUNT g' = PAIR_COUNT g ∧ STOAT_TO_DISCORD g' = STOAT_TO_DISCORD g ∧
  DISCORD_TO_STOAT g' = DISCORD_TO_STOAT g ∧ stoat_channels g' = stoat_channels g.

(** Every fetch of a Stoat channel succeeds, whenever it is made. *)
Definition stoat_up (p : platform) : Prop :=
  ∀ h stoat_id, ∃ ch, stoat_fetch_channel p h stoat_id = inr ch.

(** Every call of [_setup_webhooks] that can raise succeeds, whenever it
    is made. *)
Definition discord_up (p : platform) : Prop :=
  (∀ h discord_id, ∃ ch, discord_fetch_channel p h discord_id = inr ch) ∧
  (∀ h ch, ∃ listed, channel_webhooks p h ch = inr listed) ∧
  (∀ h ch name, ∃ wh, channel_create_webhook p h ch name = inr wh).

(** Discord hands out no webhook of id 0: neither in a listing nor as
    the result of a creation. *)
Definition platform_ids_nonzero (p : platform) : Prop :=
  (∀ h ch listed lw,
     channel_webhooks p h ch = inr listed → lw ∈ listed → wh_id (lw_webhook lw) ≠ 0) ∧
  (∀ h ch name wh, channel_create_webhook p h ch name = inr wh → wh_id wh ≠ 0).

(** ** Start of the program *)

(** The module body, then [main] up to the start of the clients: the
    constants, the globals and the log, or the exception that ends the
    process. *)
Definition startup (isspace : ascii → bool) (py_int : string → Py.exc + Z)
    (environ : gmap string string) : Py.exc + config * globals * list effect :=
  match exec_script isspace py_int environ with
  | inl e => inl e
  | inr (cfg, g) =>
      match run (main_startup cfg) (λ _, None) g with
      | (Returned _, g', t) => inr (cfg, g', t)
      | (Raised e, _, _) => inl e
      end
  end.

Module Samples2.

(** [int] on an optional sign followed by decimal digits. *)
Fixpoint digits (s : string) (acc : Z) : option Z :=
  match s with
  | EmptyString => Some acc
  | String c s' =>
      let n := nat_of_ascii c in
      if ((48 <=? n) && (n <=? 57))%nat
      then digits s' (10 * acc + Z.of_nat (n - 48))
      else None
  end.

Definition int (s : string) : Py.exc + Z :=
  match match s with
        | String "-" (String c r) => Z.opp <$> digits (String c r) 0
        | String c r => digits (String c r) 0
        | EmptyString => None
        end with
  | Some z => inr z
  | None => inl (Py.Exc "ValueError"
                   ("invalid literal for int() with base 10: '" +:+ s +:+ "'"))
  end.

Definition environ : gmap string string :=
  {[ "DISCORD_BOT_TOKEN" := "d-token"; "STOAT_BOT_TOKEN" := "s-token";
     "DISCORD_CHANNEL_IDS" := "111, 222,";
     "STOAT_CHANNEL_IDS" := " aaa ,bbb" ]}.

(** A platform where every call succeeds: channel 111 has a webhook of
    the bot (account 500), channel 222 only one of somebody else. *)
Definition platform_up : platform :=
  mkPlatform "bridge#stoat" "bridge#0001"
    (λ _ stoat_id, inr (mkStoatChannel stoat_id "general"))
    (λ _ discord_id, if (discord_id =? 111)%Z then Some (mkDiscordChannel 111) else None)
    (λ _ discord_id, inr (mkDiscordChannel discord_id))
    (λ _ channel,
       if (dc_id channel =? 111)%Z
       then inr [mkListed (mkWebhook 5 "other") (Some 9);
                 mkListed (mkWebhook 77 "Stoat Bridge") (Some 500)]
       else inr [mkListed (mkWebhook 6 "other") None])
    (λ _ channel name, inr (mkWebhook (dc_id channel + 1000) name)).

(** The same platform, with one fixed webhook as the result of every
    creation. *)
Definition platform_fixed : platform :=
  mkPlatform (str_me platform_up) (str_user platform_up)
    (stoat_fetch_channel platform_up) (discord_get_channel platform_up)
    (discord_fetch_channel platform_up) (channel_webhooks platform_up)
    (λ _ _ name, inr (mkWebhook 1222 name)).

(** A platform where every call that can raise does. *)
Definition platform_down : platform :=
  mkPlatform "bridge#stoat" "bridge#0001"
    (λ _ _, inl (Py.Exc "HTTPException" "503"))
    (λ _ _, None)
    (λ _ _, inl (Py.Exc "NotFound" "404"))
    (λ _ _, inl (Py.Exc "Forbidden" "403"))
    (λ _ _ _, inl (Py.Exc "Forbidden" "403")).

Definition cfg : config := mkConfig "d-token" "s-token" [111; 222] ["aaa"; "bbb"].

(** The globals after loading [cfg], registries empty. *)
Definition loaded : globals :=
  mkGlobals 2 {["aaa" := 111; "bbb" := 222]} {[111 := "aaa"; 222 := "bbb"]} ∅ ∅.

End Samples2.

(** * Properties *)

(** Membership and repetition in a literal list. *)
Ltac solve_not_elem :=
  let Hin := fresh "Hin" in
  intros Hin;
  repeat (apply elem_of_cons in Hin as [Hin|Hin]; [discriminate Hin|]);
  by apply elem_of_nil in Hin.

Ltac solve_NoDup :=
  repeat (apply NoDup_cons_2; [solve_not_elem|]); apply NoDup_nil_2.

(** ** The pair table *)

Section dict_comprehension.
Context {K V P : Type} `{Countable K}.
Variable f : gmap K V → P → gmap K V.
Variables (key : P → K) (val : P → V).
Hypothesis f_insert : ∀ m p, f m p = <[key p := val p]> m.

(** A key that no pair carries keeps the binding of the initial map. *)
Lemma foldl_insert_absent (l : list P) (m0 : gmap K V) (k : K) :
  (∀ p, p ∈ l → key p ≠ k) → foldl f m0 l !! k = m0 !! k.
Proof.
  revert m0. induction l as [|p l IH]; intros m0 Hk; [done|].
  cbn. rewrite IH.
  - rewrite f_insert. apply lookup_insert_ne, Hk. by left.
  - intros q Hq. apply Hk. by right.
Qed.

(** The pair at the last position of a key decides its binding. *)
Lemma foldl_insert_last (l : list P) (m0 : gmap K V) (i : nat) (p : P) :
  l !! i = Some p →
  (∀ j q, (i < j)%nat → l !! j = Some q → key q ≠ key p) →
  foldl f m0 l !! key p = Some (val p).
Proof.
  revert m0 i. induction l as [|q l IH]; intros m0 i Hi Hlast; [done|].
  destruct i as [|i]; cbn in *.
  - injection Hi as ->.
    rewrite foldl_insert_absent.
    + rewrite f_insert. apply lookup_insert_eq.
    + intros q [j Hj]%list_elem_of_lookup. apply (Hlast (S j)); [lia | done].
  - apply (IH _ i); [done|].
    intros j q' Hj Hq'. apply (Hlast (S j)); [lia | done].
Qed.
End dict_comprehension.

Lemma discord_to_stoat_last (ds : list Z) (ss : list string) i d s :
  ds !! i = Some d → ss !! i = Some s →
  (∀ j, (i < j)%nat → ds !! j ≠ Some d) →
  discord_to_stoat_comp ds ss !! d = Some s.
Proof.
  intros Hd Hs Hlast. unfold discord_to_stoat_comp.
  apply (foldl_insert_last _ fst snd) with (i := i) (p := (d, s)).
  - by intros m [d' s'].
  - by apply lookup_zip_Some.
  - intros j [d' s'] Hj [Hd' _]%lookup_zip_Some; cbn; intros ->. by apply (Hlast j).
Qed.

Lemma stoat_to_discord_last (ds : list Z) (ss : list string) i d s :
  ds !! i = Some d → ss !! i = Some s →
  (∀ j, (i < j)%nat → ss !! j ≠ Some s) →
  stoat_to_discord_comp ds ss !! s = Some d.
Proof.
  intros Hd Hs Hlast. unfold stoat_to_discord_comp.
  apply (foldl_insert_last _ snd fst) with (i := i) (p := (d, s)).
  - by intros m [d' s'].
  - by apply lookup_zip_Some.
  - intros j [d' s'] Hj [_ Hs']%lookup_zip_Some; cbn; intros ->. by apply (Hlast j).
Qed.

Lemma discord_to_stoat_absent (ds : list Z) (ss : list string) d :
  d ∉ ds → discord_to_stoat_comp ds ss !! d = None.
Proof.
  intros Hd. unfold discord_to_stoat_comp.
  rewrite (foldl_insert_absent _ fst snd); [done | by intros m [d' s'] |].
  intros [d' s'] Hin; cbn; intros ->. by apply Hd, (elem_of_zip_l _ _ _ _ Hin).
Qed.

Lemma stoat_to_discord_absent (ds : list Z) (ss : list string) s :
  s ∉ ss → stoat_to_discord_comp ds ss !! s = None.
Proof.
  intros Hs. unfold stoat_to_discord_comp.
  rewrite (foldl_insert_absent _ snd fst); [done | by intros m [d' s'] |].
  intros [d' s'] Hin; cbn; intros ->. by apply Hs, (elem_of_zip_r _ _ _ _ Hin).
Qed.

(** With lists of equal length the module body runs to its end and binds
    the two comprehensions. *)
Lemma load_module_equal_length (ds : list Z) (ss : list string) :
  length ds = length ss →
  exec_module ds ss =
    (mkNs (Some (length ds)) (Some (stoat_to_discord_comp ds ss))
       (Some (discord_to_stoat_comp ds ss)) (Some ∅) (Some ∅), None)
  ∧ load_module ds ss =
      Some (mkGlobals (length ds) (stoat_to_discord_comp ds ss)
              (discord_to_stoat_comp ds ss) ∅ ∅).
Proof.
  intros Hlen. unfold load_module, exec_module.
  rewrite (proj2 (Nat.eqb_eq _ _) Hlen). done.
Qed.

(** The sample globals are what loading the lists [10] and [st1] gives. *)
Example samples_loaded : load_module [10] ["st1"] = Some Samples.not_ready.
Proof. by vm_compute. Qed.

(** C1, as stated, fails on a list with a repeated identifier: with
    Discord ids [1; 1] and Stoat ids [a; b] the lists have equal length and
    the module loads, yet resolving the identifier at position 0 of the
    Discord list gives [b], the Stoat identifier at position 1, and not
    [a], the one at position 0. *)
Lemma pair_table_positional_counterexample :
  length [1; 1] = length ["a"; "b"] ∧
  ∃ g, load_module [1; 1] ["a"; "b"] = Some g ∧
       [1; 1] !! 0%nat = Some 1 ∧ ["a"; "b"] !! 0%nat = Some "a" ∧
       resolve_to_stoat g 1 = Some "b" ∧ resolve_to_stoat g 1 ≠ Some "a".
Proof.
  split; [done|]. eexists. split; [reflexivity|].
  split; [done|]. split; [done|]. split; by vm_compute.
Qed.

(** C1 (amended): for identifier lists of equal length the module loads,
    and then: when no Discord identifier is repeated, the Discord
    identifier at position [i] resolves to the Stoat identifier at position
    [i]; when no Stoat identifier is repeated, the Stoat identifier at
    position [i] resolves to the Discord identifier at position [i]; and an
    identifier that is not in the list of the queried side resolves to
    absent, repeated identifiers or not. *)
Theorem pair_table_positional (ds : list Z) (ss : list string) :
  length ds = length ss →
  ∃ g, load_module ds ss = Some g ∧
    (NoDup ds → ∀ i d s, ds !! i = Some d → ss !! i = Some s →
       resolve_to_stoat g d = Some s) ∧
    (NoDup ss → ∀ i d s, ds !! i = Some d → ss !! i = Some s →
       resolve_to_discord g s = Some d) ∧
    (∀ d, d ∉ ds → resolve_to_stoat g d = None) ∧
    (∀ s, s ∉ ss → resolve_to_discord g s = None).
Proof.
  intros Hlen. destruct (load_module_equal_length ds ss Hlen) as [_ Hload].
  eexists. split; [exact Hload|]. unfold resolve_to_stoat, resolve_to_discord; cbn.
  repeat split.
  - intros Hnd i d s Hd Hs. apply (discord_to_stoat_last _ _ i); [done..|].
    intros j Hij Hj. pose proof (NoDup_lookup _ _ _ _ Hnd Hd Hj). lia.
  - intros Hnd i d s Hd Hs. apply (stoat_to_discord_last _ _ i); [done..|].
    intros j Hij Hj. pose proof (NoDup_lookup _ _ _ _ Hnd Hs Hj). lia.
  - apply discord_to_stoat_absent.
  - apply stoat_to_discord_absent.
Qed.

Lemma pair_table_positional_witness :
  ∃ g, load_module [10; 20] ["a"; "b"] = Some g ∧
       resolve_to_stoat g 20 = Some "b" ∧
       resolve_to_discord g "a" = Some 10 ∧
       resolve_to_stoat g 30 = None ∧
       resolve_to_discord g "c" = None.
Proof.
  destruct (pair_table_positional [10; 20] ["a"; "b"] eq_refl)
    as (g & Hg & Hd & Hs & Hnd & Hns).
  exists g. split; [exact Hg|]. repeat split.
  - apply Hd with (i := 1%nat); [solve_NoDup | reflexivity..].
  - apply Hs with (i := 0%nat); [solve_NoDup | reflexivity..].
  - apply Hnd. solve_not_elem.
  - apply Hns. solve_not_elem.
Defined.

(** C5: when the two identifier lists differ in length the module body
    stops with a [RuntimeError] that reports the two lengths, before any
    name is bound: neither [STOAT_TO_DISCORD] nor [DISCORD_TO_STOAT]
    exists afterwards, and there are no globals for a handler to run on. *)
Theorem exec_module_length_mismatch (ds : list Z) (ss : list string) :
  length ds ≠ length ss →
  (exec_module ds ss).2 = Some (Py.RuntimeError (length_mismatch_msg ds ss)) ∧
  (exec_module ds ss).1 = ns_unbound ∧
  ns_STOAT_TO_DISCORD (exec_module ds ss).1 = None ∧
  ns_DISCORD_TO_STOAT (exec_module ds ss).1 = None ∧
  load_module ds ss = None.
Proof.
  intros Hlen. unfold load_module, exec_module.
  rewrite (proj2 (Nat.eqb_neq _ _) Hlen). done.
Qed.

Lemma exec_module_length_mismatch_witness :
  (exec_module [1; 2] ["a"]).2 =
    Some (Py.RuntimeError "Channel list length mismatch: 2 Discord IDs vs 1 Stoat IDs.") ∧
  ns_STOAT_TO_DISCORD (exec_module [1; 2] ["a"]).1 = None ∧
  ns_DISCORD_TO_STOAT (exec_module [1; 2] ["a"]).1 = None ∧
  load_module [1; 2] ["a"] = None.
Proof.
  destruct (exec_module_length_mismatch [1; 2] ["a"] ltac:(cbn; lia))
    as (He & _ & Hs & Hd & Hl).
  exact (conj He (conj Hs (conj Hd Hl))).
Defined.

(** C10: repeated identifiers do not stop the construction.  For lists of
    equal length the module body raises nothing, and in each direction an
    identifier is bound to the identifier paired with it at the last
    position where it occurs in its list. *)
Theorem pair_table_last_occurrence_wins (ds : list Z) (ss : list string) :
  length ds = length ss →
  (exec_module ds ss).2 = None ∧
  ∃ g, load_module ds ss = Some g ∧
    (∀ i d s, ds !! i = Some d → ss !! i = Some s →
       (∀ j, (i < j)%nat → ds !! j ≠ Some d) →
       resolve_to_stoat g d = Some s) ∧
    (∀ i d s, ds !! i = Some d → ss !! i = Some s →
       (∀ j, (i < j)%nat → ss !! j ≠ Some s) →
       resolve_to_discord g s = Some d).
Proof.
  intros Hlen. destruct (load_module_equal_length ds ss Hlen) as [Hexec Hload].
  split; [by rewrite Hexec|].
  eexists. split; [exact Hload|]. unfold resolve_to_stoat, resolve_to_discord; cbn.
  split; intros i d s Hd Hs Hlast.
  - by apply (discord_to_stoat_last _ _ i).
  - by apply (stoat_to_discord_last _ _ i).
Qed.

Lemma pair_table_last_occurrence_wins_witness :
  (exec_module [7; 8; 7] ["x"; "y"; "y"]).2 = None ∧
  ∃ g, load_module [7; 8; 7] ["x"; "y"; "y"] = Some g ∧
       resolve_to_stoat g 7 = Some "y" ∧
       resolve_to_discord g "y" = Some 7.
Proof.
  destruct (pair_table_last_occurrence_wins [7; 8; 7] ["x"; "y"; "y"] eq_refl)
    as (He & g & Hg & Hd & Hs).
  split; [exact He|]. exists g. split; [exact Hg|]. split.
  - apply (Hd 2%nat); [reflexivity..|]. intros j Hj. by rewrite lookup_ge_None_2 by (cbn; lia).
  - apply (Hs 2%nat); [reflexivity..|]. intros j Hj. by rewrite lookup_ge_None_2 by (cbn; lia).
Defined.

(** ** Slicing and truthiness *)

Lemma slice_to_length n s :
  String.length (Py.slice_to n s) = Nat.min n (String.length s).
Proof.
  revert s. induction n as [|n IH]; intros [|c s]; cbn; try done.
  by rewrite IH.
Qed.

Lemma slice_to_prefix n s : ∃ rest, s = Py.slice_to n s +:+ rest.
Proof.
  revert s. induction n as [|n IH]; intros [|c s]; cbn; try by eexists.
  destruct (IH s) as [rest Hrest]. exists rest. exact (f_equal (String c) Hrest).
Qed.

Lemma slice_to_short n s : (String.length s ≤ n)%nat → Py.slice_to n s = s.
Proof.
  revert s. induction n as [|n IH]; intros [|c s]; cbn; try done; try lia.
  intros Hle. rewrite IH; [done | lia].
Qed.

Lemma slice_to_truncated n s : truncated_to n s (Py.slice_to n s).
Proof. split; [apply slice_to_length | apply slice_to_prefix]. Qed.

Lemma truthy_str_nonempty s : Py.truthy_str s = true ↔ s ≠ "".
Proof. by destruct s. Qed.

Lemma webhook_ids_spec (g : globals) (w : Z) :
  w ∈ (list_to_set (wh_id <$> (snd <$> map_to_list (discord_webhooks g))) : gset Z)
  ↔ registered_webhook_id g w.
Proof.
  rewrite elem_of_list_to_set, list_elem_of_fmap. unfold registered_webhook_id. split.
  - intros (wh & -> & ([k wh'] & -> & Hin%elem_of_map_to_list)%list_elem_of_fmap).
    by exists k, wh'.
  - intros (k & wh & Hk & <-). exists wh. split; [done|].
    apply list_elem_of_fmap. exists (k, wh). split; [done|]. by apply elem_of_map_to_list.
Qed.

Lemma from_own_webhook_run (message : Discord.Message) net g :
  ∃ b, run (from_own_webhook message) net g = (Returned b, g, echo_reads message)
       ∧ (b = true ↔ dropped_as_own_webhook g message).
Proof.
  unfold from_own_webhook, dropped_as_own_webhook, echo_reads, run.
  destruct (Discord.webhook_id message) as [w|] eqn:Hw.
  - unfold Py.truthy_int. destruct (Z.eqb_spec w 0) as [->|Hne]; cbn.
    + exists false. split; [done|].
      split; [done|]. by intros (w & [= <-] & Hw0 & _).
    + eexists. split; [reflexivity|].
      rewrite bool_decide_eq_true, webhook_ids_spec.
      split; [intros Hr; by exists w | by intros (w' & [= <-] & _ & Hr)].
  - exists false. split; [done|].
    split; [done|]. by intros (w & [=] & _).
Qed.

Ltac step_M :=
  cbv beta iota zeta delta
    [run mbind M_bind mret M_ret try_except await_send logger
     discord_webhooks_get discord_webhook_ids stoat_channels_get
     read_globals emit negb].

Section stoat_runs.
Variables (self : Stoat.Client) (event : Stoat.MessageCreateEvent).
Variables (net : network) (g : globals).
Let msg := Stoat.message event.

Lemma stoat_run_self :
  Stoat.author_id msg = Stoat.me_id self →
  run (on_message_create self event) net g = (Returned tt, g, []).
Proof.
  intros Hself. unfold on_message_create. fold msg.
  by rewrite bool_decide_eq_true_2.
Qed.

Lemma stoat_run_unpaired :
  STOAT_TO_DISCORD g !! Stoat.channel_id msg = None →
  run (on_message_create self event) net g = (Returned tt, g, []).
Proof.
  intros Hnone. unfold on_message_create. fold msg.
  case_bool_decide; [done|]. step_M. by rewrite Hnone.
Qed.

Lemma stoat_run_empty :
  Stoat.content msg = "" →
  run (on_message_create self event) net g = (Returned tt, g, []).
Proof.
  intros Hempty. unfold on_message_create. fold msg.
  case_bool_decide; [done|]. step_M.
  destruct (STOAT_TO_DISCORD g !! Stoat.channel_id msg); [|done].
  by rewrite Hempty.
Qed.

Section paired.
Variable discord_id : Z.
Hypothesis not_self : Stoat.author_id msg ≠ Stoat.me_id self.
Hypothesis paired : STOAT_TO_DISCORD g !! Stoat.channel_id msg = Some discord_id.
Hypothesis has_text : Stoat.content msg ≠ "".

Lemma stoat_run_not_ready :
  discord_webhooks g !! discord_id = None →
  run (on_message_create self event) net g =
    (Returned tt, g,
     [WebhooksGet discord_id;
      Log WARNING ("Stoat -> Discord: dropped (webhook for Discord channel "
                     +:+ Py.str_int discord_id +:+ " not ready)")]).
Proof.
  intros Hnone. unfold on_message_create. fold msg.
  rewrite bool_decide_eq_false_2 by done. step_M. rewrite paired.
  rewrite (proj2 (truthy_str_nonempty _) has_text). step_M. by rewrite Hnone.
Qed.

Lemma stoat_run_relay (webhook : Webhook) :
  discord_webhooks g !! discord_id = Some webhook →
  run (on_message_create self event) net g =
    (Returned tt, g,
     [WebhooksGet discord_id; Send (stoat_outbound webhook msg)] ++
     match net (stoat_outbound webhook msg) with
     | None => []
     | Some e => [Log ERROR ("Stoat -> Discord (channel " +:+ Py.str_int discord_id
                               +:+ "): " +:+ Py.exc_text e)]
     end).
Proof.
  intros Hwh. unfold on_message_create. fold msg.
  rewrite bool_decide_eq_false_2 by done. step_M. rewrite paired.
  rewrite (proj2 (truthy_str_nonempty _) has_text). step_M. rewrite Hwh.
  fold (stoat_author_name (Stoat.author msg)).
  change (match Stoat.avatar (Stoat.author msg) with
          | Some a => Some (Stoat.url a) | None => None end)
    with (Stoat.url <$> Stoat.avatar (Stoat.author msg)).
  fold (stoat_outbound webhook msg). by destruct (net _).
Qed.
End paired.
End stoat_runs.

Section discord_runs.
Variables (self : Discord.Bot) (message : Discord.Message).
Variables (net : network) (g : globals).

Ltac enter_on_message b Hb :=
  let Hrun := fresh "Hrun" in
  unfold on_message; step_M;
  destruct (from_own_webhook_run message net g) as (b & Hrun & Hb);
  unfold run in Hrun; rewrite Hrun; clear Hrun.

Lemma dropped_echo_reads :
  dropped_as_own_webhook g message → echo_reads message = [WebhooksValues].
Proof.
  intros (w & Hw & Hne & _). unfold echo_reads, Py.truthy_int. rewrite Hw.
  by rewrite (proj2 (Z.eqb_neq _ _) Hne).
Qed.

Lemma discord_run_own_webhook :
  dropped_as_own_webhook g message →
  run (on_message self message) net g = (Returned tt, g, [WebhooksValues]).
Proof.
  intros Hdrop. enter_on_message b Hb.
  rewrite (proj2 Hb Hdrop), dropped_echo_reads by done. done.
Qed.

Lemma discord_run_unpaired :
  DISCORD_TO_STOAT g !! Discord.channel_id message = None →
  run (on_message self message) net g = (Returned tt, g, echo_reads message).
Proof.
  intros Hnone. enter_on_message b Hb.
  destruct b; [by rewrite app_nil_r|]. rewrite Hnone. by rewrite app_nil_r.
Qed.

Lemma discord_run_empty :
  Discord.content message = "" →
  run (on_message self message) net g = (Returned tt, g, echo_reads message).
Proof.
  intros Hempty. enter_on_message b Hb.
  destruct b; [by rewrite app_nil_r|].
  destruct (DISCORD_TO_STOAT g !! Discord.channel_id message); [|by rewrite app_nil_r].
  rewrite Hempty. change (Py.truthy_str "") with false. step_M.
  by rewrite app_nil_r.
Qed.

Section paired.
Variable stoat_id : string.
Hypothesis not_dropped : ¬ dropped_as_own_webhook g message.
Hypothesis paired : DISCORD_TO_STOAT g !! Discord.channel_id message = Some stoat_id.
Hypothesis has_text : Discord.content message ≠ "".

Lemma discord_run_not_ready :
  stoat_channels g !! stoat_id = None →
  run (on_message self message) net g =
    (Returned tt, g,
     echo_reads message ++
     [StoatChannelsGet stoat_id;
      Log WARNING ("Discord -> Stoat: dropped (Stoat channel " +:+ stoat_id
                     +:+ " not ready)")]).
Proof.
  intros Hnone. enter_on_message b Hb.
  destruct b; [by destruct not_dropped; apply Hb|].
  rewrite paired, (proj2 (truthy_str_nonempty _) has_text). step_M.
  by rewrite Hnone.
Qed.

Lemma discord_run_relay (ch : StoatChannel) :
  stoat_channels g !! stoat_id = Some ch →
  run (on_message self message) net g =
    (Returned tt, g,
     echo_reads message ++
     [StoatChannelsGet stoat_id; Send (discord_outbound ch message)] ++
     match net (discord_outbound ch message) with
     | None => []
     | Some e => [Log ERROR ("Discord -> Stoat (channel " +:+ stoat_id +:+ "): "
                               +:+ Py.exc_text e)]
     end).
Proof.
  intros Hch. enter_on_message b Hb.
  destruct b; [by destruct not_dropped; apply Hb|].
  rewrite paired, (proj2 (truthy_str_nonempty _) has_text). step_M.
  rewrite Hch. fold (discord_avatar_url (Discord.author message)).
  fold (discord_outbound ch message). by destruct (net _).
Qed.
End paired.
End discord_runs.

(** ** Reading traces *)

Lemma sends_app (t1 t2 : list effect) : sends (t1 ++ t2) = sends t1 ++ sends t2.
Proof. apply omap_app. Qed.

Lemma logs_app lvl (t1 t2 : list effect) : logs lvl (t1 ++ t2) = logs lvl t1 ++ logs lvl t2.
Proof. apply omap_app. Qed.

Lemma reads_app r (t1 t2 : list effect) : reads r (t1 ++ t2) = reads r t1 ++ reads r t2.
Proof. apply List.filter_app. Qed.

Lemma elem_of_sends (c : send_call) (t : list effect) : Send c ∈ t → c ∈ sends t.
Proof. intros Hin. apply list_elem_of_omap. by exists (Send c). Qed.

Lemma echo_reads_cases (message : Discord.Message) :
  echo_reads message = [] ∨ echo_reads message = [WebhooksValues].
Proof.
  unfold echo_reads. destruct (Discord.webhook_id message) as [w|]; [|by left].
  destruct (Py.truthy_int w); [by right | by left].
Qed.

(** The scan of line 185 sends nothing, logs nothing and does not touch
    the registry of Stoat channels. *)
Lemma echo_reads_quiet (message : Discord.Message) :
  sends (echo_reads message) = [] ∧
  (∀ lvl, logs lvl (echo_reads message) = []) ∧
  reads StoatChannels (echo_reads message) = [].
Proof. by destruct (echo_reads_cases message) as [-> | ->]. Qed.

(** [truncated_to] pins the result down: it is what the slice computes. *)
Lemma truncated_to_unique n s t : truncated_to n s t → t = Py.slice_to n s.
Proof.
  revert s t. induction n as [|n IH]; intros s t [Hlen [rest Hrest]].
  - destruct t; [by destruct s | done].
  - destruct s as [|c s].
    + by destruct t.
    + destruct t as [|c' t]; [done|]. cbn in Hlen.
      injection Hrest as <- Hrest. cbn. f_equal. apply IH. split; [lia | by exists rest].
Qed.

(** ** The shapes of a run *)

(** The three ways a run of the Stoat handler can go. *)
Lemma on_message_create_cases (self : Stoat.Client) (event : Stoat.MessageCreateEvent)
    (net : network) (g : globals) :
  run (on_message_create self event) net g = (Returned tt, g, [])
  ∨ (∃ d, resolve_to_discord g (Stoat.channel_id (Stoat.message event)) = Some d ∧
          discord_webhooks g !! d = None ∧
          ∃ w, run (on_message_create self event) net g =
                 (Returned tt, g, [WebhooksGet d; Log WARNING w]))
  ∨ (∃ d wh, resolve_to_discord g (Stoat.channel_id (Stoat.message event)) = Some d ∧
             discord_webhooks g !! d = Some wh ∧
             ∃ errlog, run (on_message_create self event) net g =
               (Returned tt, g,
                [WebhooksGet d; Send (stoat_outbound wh (Stoat.message event))] ++
                match net (stoat_outbound wh (Stoat.message event)) with
                | None => []
                | Some e => [Log ERROR (errlog e)]
                end)).
Proof.
  set (msg := Stoat.message event). unfold resolve_to_discord.
  destruct (decide (Stoat.author_id msg = Stoat.me_id self)) as [Hself|Hself].
  { left. by apply stoat_run_self. }
  destruct (STOAT_TO_DISCORD g !! Stoat.channel_id msg) as [d|] eqn:Hpair.
  2: { left. by apply stoat_run_unpaired. }
  destruct (decide (Stoat.content msg = "")) as [Hempty|Htext].
  { left. by apply stoat_run_empty. }
  destruct (discord_webhooks g !! d) as [wh|] eqn:Hwh.
  - right; right. exists d, wh. split; [done|]. split; [done|].
    rewrite (stoat_run_relay self event net g d Hself Hpair Htext wh Hwh).
    by eexists (λ e, _).
  - right; left. exists d. split; [done|]. split; [done|].
    rewrite (stoat_run_not_ready self event net g d Hself Hpair Htext Hwh). by eexists.
Qed.

(** The three ways a run of the Discord handler can go, after the reads
    of line 185. *)
Lemma on_message_cases (self : Discord.Bot) (message : Discord.Message)
    (net : network) (g : globals) :
  (∃ pre, (pre = [] ∨ pre = [WebhooksValues]) ∧
          run (on_message self message) net g = (Returned tt, g, pre))
  ∨ (∃ s, resolve_to_stoat g (Discord.channel_id message) = Some s ∧
          stoat_channels g !! s = None ∧
          ∃ w, run (on_message self message) net g =
                 (Returned tt, g,
                  echo_reads message ++ [StoatChannelsGet s; Log WARNING w]))
  ∨ (∃ s ch, resolve_to_stoat g (Discord.channel_id message) = Some s ∧
             stoat_channels g !! s = Some ch ∧
             ∃ errlog, run (on_message self message) net g =
               (Returned tt, g,
                echo_reads message ++
                [StoatChannelsGet s; Send (discord_outbound ch message)] ++
                match net (discord_outbound ch message) with
                | None => []
                | Some e => [Log ERROR (errlog e)]
                end)).
Proof.
  unfold resolve_to_stoat.
  destruct (from_own_webhook_run message net g) as (b & _ & Hb).
  destruct b.
  { left. exists [WebhooksValues]. split; [by right|].
    by apply discord_run_own_webhook, Hb. }
  assert (¬ dropped_as_own_webhook g message) as Hkeep by (by intros ?%Hb).
  destruct (DISCORD_TO_STOAT g !! Discord.channel_id message) as [s|] eqn:Hpair.
  2: { left. exists (echo_reads message). split; [apply echo_reads_cases|].
       by apply discord_run_unpaired. }
  destruct (decide (Discord.content message = "")) as [Hempty|Htext].
  { left. exists (echo_reads message). split; [apply echo_reads_cases|].
    by apply discord_run_empty. }
  destruct (stoat_channels g !! s) as [ch|] eqn:Hch.
  - right; right. exists s, ch. split; [done|]. split; [done|].
    rewrite (discord_run_relay self message net g s Hkeep Hpair Htext ch Hch).
    by eexists (λ e, _).
  - right; left. exists s. split; [done|]. split; [done|].
    rewrite (discord_run_not_ready self message net g s Hkeep Hpair Htext Hch).
    by eexists.
Qed.

(** Every run of either handler returns normally, leaves the globals as
    they were, and has one of three traces after its registry reads:
    nothing more, one warning, or one outbound call followed by one error
    record exactly when the call raised. *)
Lemma handle_cases (i : inbound) (net : network) (g : globals) :
  ∃ pre, sends pre = [] ∧ (∀ lvl, logs lvl pre = []) ∧
    (run (handle i) net g = (Returned tt, g, pre)
     ∨ (∃ w, run (handle i) net g = (Returned tt, g, pre ++ [Log WARNING w]))
     ∨ (∃ call errlog, run (handle i) net g =
          (Returned tt, g,
           pre ++ [Send call] ++
           match net call with
           | None => []
           | Some e => [Log ERROR (errlog e)]
           end))).
Proof.
  destruct i as [self event | self message]; cbn [handle].
  - destruct (on_message_create_cases self event net g)
      as [-> | [(d & _ & _ & w & ->) | (d & wh & _ & _ & errlog & ->)]].
    + exists []. auto.
    + exists [WebhooksGet d]. split; [done|]. split; [done|]. right; left. by exists w.
    + exists [WebhooksGet d]. split; [done|]. split; [done|]. right; right.
      by exists (stoat_outbound wh (Stoat.message event)), errlog.
  - destruct (echo_reads_quiet message) as (Hs & Hl & _).
    destruct (on_message_cases self message net g)
      as [(pre & Hpre & ->) | [(s & _ & _ & w & ->) | (s & ch & _ & _ & errlog & ->)]].
    + exists pre. by destruct Hpre as [-> | ->]; auto.
    + exists (echo_reads message ++ [StoatChannelsGet s]).
      split; [by rewrite sends_app, Hs|]. split; [by intros lvl; rewrite logs_app, Hl|].
      right; left. exists w. by rewrite <- !app_assoc.
    + exists (echo_reads message ++ [StoatChannelsGet s]).
      split; [by rewrite sends_app, Hs|]. split; [by intros lvl; rewrite logs_app, Hl|].
      right; right. exists (discord_outbound ch message), errlog. by rewrite <- !app_assoc.
Qed.

(** A handler never raises and never assigns to a global. *)
Lemma handle_returns (i : inbound) (net : network) (g : globals) :
  result_of (run (handle i) net g) = Returned tt ∧
  globals_after (run (handle i) net g) = g.
Proof.
  destruct (handle_cases i net g) as (pre & _ & _ & [-> | [[w ->] | (c & l & ->)]]); done.
Qed.

(** The only call a run of the Stoat handler makes is the relay of the
    message to the webhook registered for its channel. *)
Lemma on_message_create_sends (self : Stoat.Client) (event : Stoat.MessageCreateEvent)
    (net : network) (g : globals) (c : send_call) :
  c ∈ sends (trace_of (run (on_message_create self event) net g)) →
  ∃ d wh, resolve_to_discord g (Stoat.channel_id (Stoat.message event)) = Some d ∧
          discord_webhooks g !! d = Some wh ∧
          c = stoat_outbound wh (Stoat.message event).
Proof.
  destruct (on_message_create_cases self event net g)
    as [-> | [(d & _ & _ & w & ->) | (d & wh & Hd & Hwh & errlog & ->)]];
    cbn [trace_of snd].
  - by intros ?%elem_of_nil.
  - by intros ?%elem_of_nil.
  - rewrite sends_app. destruct (net _); cbn; intros ->%list_elem_of_singleton; eauto.
Qed.

(** The only call a run of the Discord handler makes is the relay of the
    message to the Stoat channel registered for its channel. *)
Lemma on_message_sends (self : Discord.Bot) (message : Discord.Message)
    (net : network) (g : globals) (c : send_call) :
  c ∈ sends (trace_of (run (on_message self message) net g)) →
  ∃ s ch, resolve_to_stoat g (Discord.channel_id message) = Some s ∧
          stoat_channels g !! s = Some ch ∧
          c = discord_outbound ch message.
Proof.
  destruct (echo_reads_quiet message) as (Hs & _ & _).
  destruct (on_message_cases self message net g)
    as [(pre & Hpre & ->) | [(s & _ & _ & w & ->) | (s & ch & Hs' & Hch & errlog & ->)]];
    cbn [trace_of snd].
  - by destruct Hpre as [-> | ->]; intros ?%elem_of_nil.
  - rewrite sends_app, Hs. by intros ?%elem_of_nil.
  - rewrite !sends_app, Hs. destruct (net _); cbn; intros ->%list_elem_of_singleton; eauto.
Qed.

(** ** The filter chain *)

(** A message without text is not relayed, whatever its other fields. *)
Lemma empty_content_not_relayed (i : inbound) (net : network) (g : globals) :
  match i with
  | StoatMessage _ event => Stoat.content (Stoat.message event)
  | DiscordMessage _ message => Discord.content message
  end = "" →
  sends (trace_of (run (handle i) net g)) = [].
Proof.
  destruct i as [self event | self message]; cbn [handle]; intros Hempty.
  - by rewrite stoat_run_empty.
  - rewrite discord_run_empty by done. apply echo_reads_quiet.
Qed.

(** C2, as stated, fails on the Discord side: [on_message] never looks at
    [self.user].  With the pair (10, st1) ready, a message that the bot's
    own account (id 500) writes in channel 10 without a webhook id is
    relayed to Stoat. *)
Lemma own_identity_counterexample :
  Discord.id (Discord.author
                (Samples.discord_msg None 10 "hi" Samples.bot_account))
    = Discord.user_id Samples.discord_bot ∧
  sends (trace_of (run (on_message Samples.discord_bot
                          (Samples.discord_msg None 10 "hi" Samples.bot_account))
                     Samples.net_ok Samples.ready))
    = [channel_send (mkStoatChannel "st1" "general") "hi"
         (Stoat.mkMasquerade "bridge" "https://cdn.example/embed/avatars/1.png")].
Proof. split; [reflexivity | by vm_compute]. Qed.

(** C2 (amended): on Stoat, a message whose author id is the bot's own id
    produces no outbound call (and no other effect), whatever its channel
    and content.  On Discord the handler does not consult the bot's own
    account or the author's id at all: a run is the same under any bot
    account and any author id, so what it drops is decided by the webhook
    id alone. *)
Theorem own_identity_filter :
  (∀ self event net g,
     Stoat.author_id (Stoat.message event) = Stoat.me_id self →
     sends (trace_of (run (on_message_create self event) net g)) = [] ∧
     run (on_message_create self event) net g = (Returned tt, g, []))
  ∧
  (∀ self self' a message net g,
     run (on_message self message) net g =
     run (on_message self' (with_author_id a message)) net g).
Proof.
  split.
  - intros self event net g Hself. by rewrite stoat_run_self.
  - reflexivity.
Qed.

Lemma own_identity_filter_witness :
  sends (trace_of (run (on_message_create Samples.stoat_bot
                          (Samples.stoat_msg "BOT" "st1" "relayed text"))
                     Samples.net_ok Samples.ready)) = [].
Proof.
  exact (proj1 (proj1 own_identity_filter Samples.stoat_bot
                  (Samples.stoat_msg "BOT" "st1" "relayed text")
                  Samples.net_ok Samples.ready eq_refl)).
Defined.

(** C3: a Discord message that comes from one of the bridge's own
    webhooks, that is, whose webhook id is the id of a webhook in the
    registry, produces no outbound call: the handler returns after the
    scan of the registry.  The ids of the registry are Discord snowflakes,
    none of which is 0. *)
Theorem own_webhook_filter (self : Discord.Bot) (message : Discord.Message)
    (net : network) (g : globals) (w : Z) :
  registry_ids_nonzero g →
  Discord.webhook_id message = Some w → registered_webhook_id g w →
  sends (trace_of (run (on_message self message) net g)) = [] ∧
  run (on_message self message) net g = (Returned tt, g, [WebhooksValues]).
Proof.
  intros Hdomain Hw Hreg.
  rewrite discord_run_own_webhook; [done|]. exists w. split; [done|]. split; [|done].
  destruct Hreg as (k & wh & Hk & <-). by apply (Hdomain k wh).
Qed.

Lemma own_webhook_filter_witness :
  sends (trace_of (run (on_message Samples.discord_bot
                          (Samples.discord_msg (Some 77) 10 "hello from stoat" Samples.bob))
                     Samples.net_ok Samples.ready)) = [].
Proof.
  refine (proj1 (own_webhook_filter Samples.discord_bot
                   (Samples.discord_msg (Some 77) 10 "hello from stoat" Samples.bob)
                   Samples.net_ok Samples.ready 77 _ eq_refl _)).
  - intros k wh Hk.
    change (({[10 := mkWebhook 77 "Stoat Bridge"]} : gmap Z Webhook) !! k = Some wh) in Hk.
    apply lookup_singleton_Some in Hk as [_ <-]. discriminate.
  - exists 10, (mkWebhook 77 "Stoat Bridge"). split; [by vm_compute | reflexivity].
Defined.

(** ** Relaying *)

(** C4, as stated, fails on a message without text: on the configured
    pair (10, st1), with the webhook of channel 10 registered, a Stoat
    message whose content is empty produces no outbound call, not one. *)
Lemma relay_one_send_counterexample :
  resolve_to_discord Samples.ready
    (Stoat.channel_id (Stoat.message (Samples.stoat_msg "u1" "st1" ""))) = Some 10 ∧
  discord_webhooks Samples.ready !! 10 = Some (mkWebhook 77 "Stoat Bridge") ∧
  sends (trace_of (run (on_message_create Samples.stoat_bot
                          (Samples.stoat_msg "u1" "st1" ""))
                     Samples.net_ok Samples.ready)) = [].
Proof. split; [by vm_compute|]. split; by vm_compute. Qed.

(** C4 (amended): for a message that passes the filter chain (on Stoat:
    not written by the bot itself; on Discord: not dropped as a message of
    one of the bridge's webhooks; on both: in a channel of the pair table
    and with text) and whose send target is registered, the handler makes
    exactly one outbound call, to that target.  Its content is the
    original content cut to 2000 characters, so a content of at most 2000
    characters goes out unchanged; the name override is the author's name
    cut to 80 characters from Stoat to Discord and to 32 characters from
    Discord to Stoat. *)
Theorem relay_one_send_truncated :
  (∀ self event net g d wh,
     Stoat.author_id (Stoat.message event) ≠ Stoat.me_id self →
     resolve_to_discord g (Stoat.channel_id (Stoat.message event)) = Some d →
     Stoat.content (Stoat.message event) ≠ "" →
     discord_webhooks g !! d = Some wh →
     ∃ text name,
       sends (trace_of (run (on_message_create self event) net g)) =
         [webhook_send wh text name
            (Stoat.url <$> Stoat.avatar (Stoat.author (Stoat.message event))) true] ∧
       truncated_to 2000 (Stoat.content (Stoat.message event)) text ∧
       truncated_to 80 (stoat_author_name (Stoat.author (Stoat.message event))) name ∧
       ((String.length (Stoat.content (Stoat.message event)) ≤ 2000)%nat →
        text = Stoat.content (Stoat.message event)))
  ∧
  (∀ self message net g s ch,
     ¬ dropped_as_own_webhook g message →
     resolve_to_stoat g (Discord.channel_id message) = Some s →
     Discord.content message ≠ "" →
     stoat_channels g !! s = Some ch →
     ∃ text name,
       sends (trace_of (run (on_message self message) net g)) =
         [channel_send ch text
            (Stoat.mkMasquerade name (discord_avatar_url (Discord.author message)))] ∧
       truncated_to 2000 (Discord.content message) text ∧
       truncated_to 32 (Discord.display_name (Discord.author message)) name ∧
       ((String.length (Discord.content message) ≤ 2000)%nat →
        text = Discord.content message)).
Proof.
  split.
  - intros self event net g d wh Hself Hpair Htext Hwh.
    rewrite (stoat_run_relay self event net g d Hself Hpair Htext wh Hwh).
    eexists _, _. split; [|split; [|split]].
    + cbn [trace_of snd]. rewrite sends_app. cbn. by destruct (net _).
    + apply slice_to_truncated.
    + apply slice_to_truncated.
    + apply slice_to_short.
  - intros self message net g s ch Hkeep Hpair Htext Hch.
    rewrite (discord_run_relay self message net g s Hkeep Hpair Htext ch Hch).
    eexists _, _. split; [|split; [|split]].
    + cbn [trace_of snd]. rewrite !sends_app.
      rewrite (proj1 (echo_reads_quiet message)). cbn. by destruct (net _).
    + apply slice_to_truncated.
    + apply slice_to_truncated.
    + apply slice_to_short.
Qed.

Lemma relay_one_send_truncated_witness :
  (∃ text name,
     sends (trace_of (run (on_message_create Samples.stoat_bot
                             (Samples.stoat_msg "u1" "st1" "hello"))
                        Samples.net_ok Samples.ready)) =
       [webhook_send (mkWebhook 77 "Stoat Bridge") text name None true] ∧
     text = "hello" ∧ truncated_to 80 "alice" name)
  ∧
  (∃ text name,
     sends (trace_of (run (on_message Samples.discord_bot
                             (Samples.discord_msg None 10
                                (Samples.repeat_char "x" 3000) Samples.bob))
                        Samples.net_down Samples.ready)) =
       [channel_send (mkStoatChannel "st1" "general") text
          (Stoat.mkMasquerade name "https://cdn.example/embed/avatars/0.png")] ∧
     String.length text = 2000%nat ∧ truncated_to 32 "bob" name).
Proof.
  split.
  - destruct (proj1 relay_one_send_truncated Samples.stoat_bot
                (Samples.stoat_msg "u1" "st1" "hello") Samples.net_ok Samples.ready
                10 (mkWebhook 77 "Stoat Bridge"))
      as (text & name & Hsends & _ & Hname & Hshort).
    + discriminate.
    + by vm_compute.
    + discriminate.
    + by vm_compute.
    + exists text, name. split; [exact Hsends|]. split; [|exact Hname].
      apply Hshort. cbn. lia.
  - destruct (proj2 relay_one_send_truncated Samples.discord_bot
                (Samples.discord_msg None 10 (Samples.repeat_char "x" 3000) Samples.bob)
                Samples.net_down Samples.ready "st1" (mkStoatChannel "st1" "general"))
      as (text & name & Hsends & [Hlen _] & Hname & _).
    + by intros (w & [=] & _).
    + by vm_compute.
    + intros Hempty. vm_compute in Hempty. discriminate.
    + by vm_compute.
    + exists text, name. split; [exact Hsends|]. split; [|exact Hname].
      rewrite Hlen. by vm_compute.
Defined.

(** C6: when a message passes the filter chain and the registry has no
    send target for the channel it resolves to, the handler returns
    normally, logs one warning and nothing else, and makes no outbound
    call. *)
Theorem target_not_ready :
  (∀ self event net g d,
     Stoat.author_id (Stoat.message event) ≠ Stoat.me_id self →
     resolve_to_discord g (Stoat.channel_id (Stoat.message event)) = Some d →
     Stoat.content (Stoat.message event) ≠ "" →
     discord_webhooks g !! d = None →
     let r := run (on_message_create self event) net g in
     result_of r = Returned tt ∧
     (∃ w, logs WARNING (trace_of r) = [w]) ∧
     logs ERROR (trace_of r) = [] ∧
     sends (trace_of r) = [])
  ∧
  (∀ self message net g s,
     ¬ dropped_as_own_webhook g message →
     resolve_to_stoat g (Discord.channel_id message) = Some s →
     Discord.content message ≠ "" →
     stoat_channels g !! s = None →
     let r := run (on_message self message) net g in
     result_of r = Returned tt ∧
     (∃ w, logs WARNING (trace_of r) = [w]) ∧
     logs ERROR (trace_of r) = [] ∧
     sends (trace_of r) = []).
Proof.
  split.
  - intros self event net g d Hself Hpair Htext Hnone r. subst r.
    rewrite (stoat_run_not_ready self event net g d Hself Hpair Htext Hnone).
    split; [done|]. split; [by eexists | done].
  - intros self message net g s Hkeep Hpair Htext Hnone r. subst r.
    rewrite (discord_run_not_ready self message net g s Hkeep Hpair Htext Hnone).
    destruct (echo_reads_quiet message) as (Hs & Hl & _).
    cbn [result_of trace_of fst snd]. rewrite !logs_app, sends_app, Hs, !Hl.
    split; [done|]. split; [by eexists | done].
Qed.

Lemma target_not_ready_witness :
  (logs WARNING (trace_of (run (on_message_create Samples.stoat_bot
                                  (Samples.stoat_msg "u1" "st1" "hello"))
                             Samples.net_ok Samples.not_ready)) =
     ["Stoat -> Discord: dropped (webhook for Discord channel 10 not ready)"] ∧
   sends (trace_of (run (on_message_create Samples.stoat_bot
                           (Samples.stoat_msg "u1" "st1" "hello"))
                      Samples.net_ok Samples.not_ready)) = [])
  ∧
  (logs WARNING (trace_of (run (on_message Samples.discord_bot
                                  (Samples.discord_msg None 10 "hi" Samples.bob))
                             Samples.net_ok Samples.not_ready)) =
     ["Discord -> Stoat: dropped (Stoat channel st1 not ready)"] ∧
   sends (trace_of (run (on_message Samples.discord_bot
                           (Samples.discord_msg None 10 "hi" Samples.bob))
                      Samples.net_ok Samples.not_ready)) = []).
Proof.
  split.
  - destruct (proj1 target_not_ready Samples.stoat_bot
                (Samples.stoat_msg "u1" "st1" "hello") Samples.net_ok
                Samples.not_ready 10)
      as (_ & [w Hw] & _ & Hsends);
      [discriminate | by vm_compute | discriminate | by vm_compute |].
    split; [|exact Hsends]. rewrite Hw. vm_compute in Hw. by injection Hw as <-.
  - destruct (proj2 target_not_ready Samples.discord_bot
                (Samples.discord_msg None 10 "hi" Samples.bob) Samples.net_ok
                Samples.not_ready "st1")
      as (_ & [w Hw] & _ & Hsends);
      [by intros (w & [=] & _) | by vm_compute | discriminate | by vm_compute |].
    split; [|exact Hsends]. rewrite Hw. vm_compute in Hw. by injection Hw as <-.
Defined.

(** C7: when the outbound call for a message raises, the handler catches
    the exception where the call is made and does not raise it again.  For
    a message that passes the filters, on a configured pair whose send
    target is registered, and whose call the network answers with an
    exception: the handler returns normally; the run made that one call
    and wrote, right after it, one error record that names the direction,
    the channel and the exception, and no warning; the globals are what
    they were, so any later event, on either platform and whatever the
    network then does, is handled exactly as it would have been had the
    failing event never arrived. *)
Theorem send_failure_contained :
  (∀ self event net g d wh e,
     Stoat.author_id (Stoat.message event) ≠ Stoat.me_id self →
     resolve_to_discord g (Stoat.channel_id (Stoat.message event)) = Some d →
     Stoat.content (Stoat.message event) ≠ "" →
     discord_webhooks g !! d = Some wh →
     net (stoat_outbound wh (Stoat.message event)) = Some e →
     result_of (run (on_message_create self event) net g) = Returned tt ∧
     trace_of (run (on_message_create self event) net g) =
       [WebhooksGet d;
        Send (stoat_outbound wh (Stoat.message event));
        Log ERROR ("Stoat -> Discord (channel " +:+ Py.str_int d +:+ "): "
                     +:+ Py.exc_text e)] ∧
     sends (trace_of (run (on_message_create self event) net g)) =
       [stoat_outbound wh (Stoat.message event)] ∧
     logs ERROR (trace_of (run (on_message_create self event) net g)) =
       ["Stoat -> Discord (channel " +:+ Py.str_int d +:+ "): " +:+ Py.exc_text e] ∧
     logs WARNING (trace_of (run (on_message_create self event) net g)) = [] ∧
     globals_after (run (on_message_create self event) net g) = g ∧
     (∀ i' net',
        run (handle i') net'
          (globals_after (run (on_message_create self event) net g)) =
        run (handle i') net' g))
  ∧
  (∀ self message net g s ch e,
     ¬ dropped_as_own_webhook g message →
     resolve_to_stoat g (Discord.channel_id message) = Some s →
     Discord.content message ≠ "" →
     stoat_channels g !! s = Some ch →
     net (discord_outbound ch message) = Some e →
     result_of (run (on_message self message) net g) = Returned tt ∧
     trace_of (run (on_message self message) net g) =
       echo_reads message ++
       [StoatChannelsGet s;
        Send (discord_outbound ch message);
        Log ERROR ("Discord -> Stoat (channel " +:+ s +:+ "): " +:+ Py.exc_text e)] ∧
     sends (trace_of (run (on_message self message) net g)) =
       [discord_outbound ch message] ∧
     logs ERROR (trace_of (run (on_message self message) net g)) =
       ["Discord -> Stoat (channel " +:+ s +:+ "): " +:+ Py.exc_text e] ∧
     logs WARNING (trace_of (run (on_message self message) net g)) = [] ∧
     globals_after (run (on_message self message) net g) = g ∧
     (∀ i' net',
        run (handle i') net' (globals_after (run (on_message self message) net g)) =
        run (handle i') net' g)).
Proof.
  split.
  - intros self event net g d wh e Hself Hpair Htext Hwh Hnet.
    rewrite (stoat_run_relay self event net g d Hself Hpair Htext wh Hwh), Hnet.
    cbn [result_of trace_of globals_after fst snd app].
    split; [done|]. split; [done|]. split; [done|]. split; [|done].
    cbn. by repeat case_decide.
  - intros self message net g s ch e Hkeep Hpair Htext Hch Hnet.
    rewrite (discord_run_relay self message net g s Hkeep Hpair Htext ch Hch), Hnet.
    destruct (echo_reads_quiet message) as (Hs & Hl & _).
    cbn [result_of trace_of globals_after fst snd app].
    rewrite !sends_app, !logs_app, Hs, !Hl.
    split; [done|]. split; [done|]. split; [done|]. split; [|done].
    cbn. by repeat case_decide.
Qed.

Lemma send_failure_contained_witness :
  (trace_of (run (on_message_create Samples.stoat_bot
                    (Samples.stoat_msg "u1" "st1" "hello"))
               Samples.net_down Samples.ready) =
     [WebhooksGet 10;
      Send (webhook_send (mkWebhook 77 "Stoat Bridge") "hello" "alice" None true);
      Log ERROR "Stoat -> Discord (channel 10): 503 Service Unavailable"] ∧
   run (handle (DiscordMessage Samples.discord_bot
                  (Samples.discord_msg None 10 "next" Samples.bob)))
     Samples.net_ok
     (globals_after (run (on_message_create Samples.stoat_bot
                            (Samples.stoat_msg "u1" "st1" "hello"))
                       Samples.net_down Samples.ready))
   = run (handle (DiscordMessage Samples.discord_bot
                    (Samples.discord_msg None 10 "next" Samples.bob)))
       Samples.net_ok Samples.ready)
  ∧
  (logs ERROR (trace_of (run (on_message Samples.discord_bot
                               (Samples.discord_msg None 10 "hi" Samples.bob))
                          Samples.net_down Samples.ready)) =
     ["Discord -> Stoat (channel st1): 503 Service Unavailable"] ∧
   run (handle (StoatMessage Samples.stoat_bot (Samples.stoat_msg "u1" "st1" "next")))
     Samples.net_ok
     (globals_after (run (on_message Samples.discord_bot
                            (Samples.discord_msg None 10 "hi" Samples.bob))
                       Samples.net_down Samples.ready))
   = run (handle (StoatMessage Samples.stoat_bot (Samples.stoat_msg "u1" "st1" "next")))
       Samples.net_ok Samples.ready).
Proof.
  split.
  - destruct (proj1 send_failure_contained Samples.stoat_bot
                (Samples.stoat_msg "u1" "st1" "hello") Samples.net_down Samples.ready
                10 (mkWebhook 77 "Stoat Bridge")
                (Py.Exc "HTTPException" "503 Service Unavailable"))
      as (_ & Htrace & _ & _ & _ & _ & Hnext);
      [discriminate | by vm_compute | discriminate | by vm_compute | reflexivity |].
    split; [exact Htrace | apply Hnext].
  - destruct (proj2 send_failure_contained Samples.discord_bot
                (Samples.discord_msg None 10 "hi" Samples.bob) Samples.net_down
                Samples.ready "st1" (mkStoatChannel "st1" "general")
                (Py.Exc "HTTPException" "503 Service Unavailable"))
      as (_ & _ & _ & Herr & _ & _ & Hnext);
      [by intros (w & [=] & _) | by vm_compute | discriminate | by vm_compute
      | reflexivity |].
    split; [exact Herr | apply Hnext].
Defined.




(** C9: a message in a channel that has no entry in the pair table of its
    direction produces no outbound call and no read of the registry of its
    destination platform (the webhook registry for a Stoat message, the
    registry of Stoat channels for a Discord message). *)
Theorem unconfigured_channel_untouched :
  (∀ self event net g,
     resolve_to_discord g (Stoat.channel_id (Stoat.message event)) = None →
     sends (trace_of (run (on_message_create self event) net g)) = [] ∧
     reads DiscordWebhooks (trace_of (run (on_message_create self event) net g)) = [])
  ∧
  (∀ self message net g,
     resolve_to_stoat g (Discord.channel_id message) = None →
     sends (trace_of (run (on_message self message) net g)) = [] ∧
     reads StoatChannels (trace_of (run (on_message self message) net g)) = []).
Proof.
  split.
  - intros self event net g Hnone. by rewrite stoat_run_unpaired.
  - intros self message net g Hnone. rewrite discord_run_unpaired by done.
    destruct (echo_reads_quiet message) as (Hs & _ & Hr). done.
Qed.

Lemma unconfigured_channel_untouched_witness :
  (sends (trace_of (run (on_message_create Samples.stoat_bot
                           (Samples.stoat_msg "u1" "elsewhere" "hello"))
                      Samples.net_ok Samples.ready)) = [] ∧
   reads DiscordWebhooks
     (trace_of (run (on_message_create Samples.stoat_bot
                       (Samples.stoat_msg "u1" "elsewhere" "hello"))
                  Samples.net_ok Samples.ready)) = [])
  ∧
  (sends (trace_of (run (on_message Samples.discord_bot
                           (Samples.discord_msg (Some 5) 99 "hi" Samples.bob))
                      Samples.net_ok Samples.ready)) = [] ∧
   reads StoatChannels
     (trace_of (run (on_message Samples.discord_bot
                       (Samples.discord_msg (Some 5) 99 "hi" Samples.bob))
                  Samples.net_ok Samples.ready)) = []).
Proof.
  split.
  - apply (proj1 unconfigured_channel_untouched). by vm_compute.
  - apply (proj2 unconfigured_channel_untouched). by vm_compute.
Defined.

(** On an unconfigured channel the Discord handler may still scan the
    webhook registry, the registry of the opposite direction: it does so
    whenever the message carries a webhook id other than 0. *)
Example unconfigured_channel_scans_webhooks :
  trace_of (run (on_message Samples.discord_bot
                   (Samples.discord_msg (Some 5) 99 "hi" Samples.bob))
              Samples.net_ok Samples.ready) = [WebhooksValues].
Proof. by vm_compute. Qed.

(** * Properties of the rest of the program *)

(** ** More on the pair table *)

Section dict_comprehension_bindings.
Context {K V P : Type} `{Countable K}.
Variable f : gmap K V → P → gmap K V.
Variables (key : P → K) (val : P → V).
Hypothesis f_insert : ∀ m p, f m p = <[key p := val p]> m.

(** A binding of the result is a binding of the initial map or comes from
    one of the pairs. *)
Lemma foldl_insert_Some_inv (l : list P) (m0 : gmap K V) (k : K) (v : V) :
  foldl f m0 l !! k = Some v →
  m0 !! k = Some v ∨ ∃ i p, l !! i = Some p ∧ key p = k ∧ val p = v.
Proof.
  revert m0. induction l as [|p l IH]; intros m0 Hk; [by left|].
  cbn in Hk. apply IH in Hk as [Hk | (i & q & Hi & Hq)].
  - rewrite f_insert in Hk. apply lookup_insert_Some in Hk as [[<- <-] | [_ Hk]].
    + right. by exists 0%nat, p.
    + by left.
  - right. by exists (S i), q.
Qed.

(** A key bound in the initial map or carried by a pair is bound in the
    result. *)
Lemma foldl_insert_is_Some (l : list P) (m0 : gmap K V) (k : K) :
  is_Some (m0 !! k) ∨ (∃ p, p ∈ l ∧ key p = k) → is_Some (foldl f m0 l !! k).
Proof.
  revert m0. induction l as [|q l IH]; intros m0 Hk.
  - destruct Hk as [Hk | (p & Hp%elem_of_nil & _)]; done.
  - cbn. apply IH. rewrite f_insert.
    destruct Hk as [Hk | (p & [-> | Hp]%elem_of_cons & Hkey)].
    + left. apply lookup_insert_is_Some'. by right.
    + left. rewrite <- Hkey, lookup_insert_eq. by eexists.
    + right. by exists p.
Qed.
End dict_comprehension_bindings.

(** The bindings of a loaded pair table, in both directions. *)
Lemma loaded_pair_table (ds : list Z) (ss : list string) (g : globals) :
  length ds = length ss → load_module ds ss = Some g →
  (∀ d s, resolve_to_stoat g d = Some s →
     ∃ i, ds !! i = Some d ∧ ss !! i = Some s) ∧
  (∀ s d, resolve_to_discord g s = Some d →
     ∃ i, ds !! i = Some d ∧ ss !! i = Some s) ∧
  (∀ d, is_Some (resolve_to_stoat g d) ↔ d ∈ ds) ∧
  (∀ s, is_Some (resolve_to_discord g s) ↔ s ∈ ss).
Proof.
  intros Hlen Hload.
  destruct (load_module_equal_length ds ss Hlen) as [_ Hg].
  rewrite Hg in Hload. injection Hload as <-.
  unfold resolve_to_stoat, resolve_to_discord; cbn.
  assert (Hd2s : ∀ d s, discord_to_stoat_comp ds ss !! d = Some s →
                        ∃ i, ds !! i = Some d ∧ ss !! i = Some s).
  { intros d s Hs. unfold discord_to_stoat_comp in Hs.
    apply (foldl_insert_Some_inv _ fst snd) in Hs as [Hs | (i & [d' s'] & Hi & Hk & Hv)];
      [done | | by intros m [??]].
    cbn in Hk, Hv. subst. exists i. by apply lookup_zip_Some. }
  assert (Hs2d : ∀ s d, stoat_to_discord_comp ds ss !! s = Some d →
                        ∃ i, ds !! i = Some d ∧ ss !! i = Some s).
  { intros s d Hs. unfold stoat_to_discord_comp in Hs.
    apply (foldl_insert_Some_inv _ snd fst) in Hs as [Hs | (i & [d' s'] & Hi & Hk & Hv)];
      [done | | by intros m [??]].
    cbn in Hk, Hv. subst. exists i. by apply lookup_zip_Some. }
  split; [exact Hd2s|]. split; [exact Hs2d|]. split.
  - intros d. split.
    + intros [s (i & Hi & _)%Hd2s]. by apply list_elem_of_lookup_2 in Hi.
    + intros [i Hi]%list_elem_of_lookup.
      destruct (lookup_lt_is_Some_2 ss i) as [s Hs].
      { rewrite <- Hlen. by apply lookup_lt_Some in Hi. }
      unfold discord_to_stoat_comp.
      apply (foldl_insert_is_Some _ fst snd); [by intros m [??]|].
      right. exists (d, s). split; [|done].
      apply (list_elem_of_lookup_2 _ i). by apply lookup_zip_Some.
  - intros s. split.
    + intros [d (i & _ & Hi)%Hs2d]. by apply list_elem_of_lookup_2 in Hi.
    + intros [i Hi]%list_elem_of_lookup.
      destruct (lookup_lt_is_Some_2 ds i) as [d Hd].
      { rewrite Hlen. by apply lookup_lt_Some in Hi. }
      unfold stoat_to_discord_comp.
      apply (foldl_insert_is_Some _ snd fst); [by intros m [??]|].
      right. exists (d, s). split; [|done].
      apply (list_elem_of_lookup_2 _ i). by apply lookup_zip_Some.
Qed.

(** X1: with identifier lists of equal length, the pair table binds
    nothing but configured pairs, and binds every configured identifier:
    a Discord identifier resolves exactly when it is in the Discord list,
    a Stoat identifier exactly when it is in the Stoat list, and whatever
    an identifier resolves to stands at the same position of the other
    list as one of its occurrences. *)
Theorem pair_table_only_configured (ds : list Z) (ss : list string) (g : globals) :
  length ds = length ss → load_module ds ss = Some g →
  (∀ d s, resolve_to_stoat g d = Some s →
     ∃ i, ds !! i = Some d ∧ ss !! i = Some s) ∧
  (∀ s d, resolve_to_discord g s = Some d →
     ∃ i, ds !! i = Some d ∧ ss !! i = Some s) ∧
  (∀ d, is_Some (resolve_to_stoat g d) ↔ d ∈ ds) ∧
  (∀ s, is_Some (resolve_to_discord g s) ↔ s ∈ ss).
Proof. apply loaded_pair_table. Qed.

Lemma pair_table_only_configured_witness :
  (∀ d s, resolve_to_stoat Samples2.loaded d = Some s →
     ∃ i, [111; 222] !! i = Some d ∧ ["aaa"; "bbb"] !! i = Some s) ∧
  ¬ is_Some (resolve_to_discord Samples2.loaded "ccc").
Proof.
  destruct (pair_table_only_configured [111; 222] ["aaa"; "bbb"] Samples2.loaded
              eq_refl) as (Hd & _ & _ & Hs).
  - by vm_compute.
  - split; [exact Hd|]. intros Hin%Hs. revert Hin. solve_not_elem.
Defined.

(** X2: when neither list repeats an identifier, the two directions of
    the pair table are inverse to each other: a Discord identifier
    resolves to a Stoat identifier exactly when that Stoat identifier
    resolves back to it. *)
Theorem pair_table_round_trip (ds : list Z) (ss : list string) (g : globals) :
  length ds = length ss → NoDup ds → NoDup ss → load_module ds ss = Some g →
  ∀ d s, resolve_to_stoat g d = Some s ↔ resolve_to_discord g s = Some d.
Proof.
  intros Hlen Hnd Hns Hload d s.
  destruct (load_module_equal_length ds ss Hlen) as [_ Hg].
  rewrite Hg in Hload. injection Hload as <-.
  unfold resolve_to_stoat, resolve_to_discord; cbn. split.
  - intros Hs. unfold discord_to_stoat_comp in Hs.
    apply (foldl_insert_Some_inv _ fst snd) in Hs as [Hs | (i & [d' s'] & Hi & Hk & Hv)];
      [done | | by intros m [??]].
    cbn in Hk, Hv. subst. apply lookup_zip_Some in Hi as [Hd Hs].
    apply (stoat_to_discord_last _ _ i); [done..|].
    intros j Hij Hj. pose proof (NoDup_lookup _ _ _ _ Hns Hs Hj). lia.
  - intros Hs. unfold stoat_to_discord_comp in Hs.
    apply (foldl_insert_Some_inv _ snd fst) in Hs as [Hs | (i & [d' s'] & Hi & Hk & Hv)];
      [done | | by intros m [??]].
    cbn in Hk, Hv. subst. apply lookup_zip_Some in Hi as [Hd Hs].
    apply (discord_to_stoat_last _ _ i); [done..|].
    intros j Hij Hj. pose proof (NoDup_lookup _ _ _ _ Hnd Hd Hj). lia.
Qed.

Lemma pair_table_round_trip_witness :
  resolve_to_stoat Samples2.loaded 222 = Some "bbb" ↔
  resolve_to_discord Samples2.loaded "bbb" = Some 222.
Proof.
  apply (pair_table_round_trip [111; 222] ["aaa"; "bbb"]);
    [reflexivity | solve_NoDup | solve_NoDup | by vm_compute].
Defined.

(** Without the condition the round trip can fail: with the Stoat
    identifier [a] configured twice, Discord channel 1 is relayed to [a]
    but [a] is relayed to Discord channel 2. *)
Example pair_table_round_trip_needs_NoDup :
  ∃ g, load_module [1; 2] ["a"; "a"] = Some g ∧
       resolve_to_stoat g 1 = Some "a" ∧ resolve_to_discord g "a" = Some 2.
Proof. eexists. split; [reflexivity|]. split; by vm_compute. Qed.

(** ** More on the handlers *)

(** X3: whatever the event, the network and the registries, a handler
    returns normally and leaves the globals as they were; it makes at most
    one outbound call and writes at most one log record, never at level
    INFO; a warning excludes a call, and an error record is written only
    after the one call of the run has raised. *)
Theorem handle_at_most_once (i : inbound) (net : network) (g : globals) :
  result_of (run (handle i) net g) = Returned tt ∧
  globals_after (run (handle i) net g) = g ∧
  (length (sends (trace_of (run (handle i) net g))) ≤ 1)%nat ∧
  (length (logs WARNING (trace_of (run (handle i) net g)))
   + length (logs ERROR (trace_of (run (handle i) net g))) ≤ 1)%nat ∧
  logs INFO (trace_of (run (handle i) net g)) = [] ∧
  (logs WARNING (trace_of (run (handle i) net g)) ≠ [] →
   sends (trace_of (run (handle i) net g)) = []) ∧
  (logs ERROR (trace_of (run (handle i) net g)) ≠ [] →
   ∃ c e, sends (trace_of (run (handle i) net g)) = [c] ∧ net c = Some e).
Proof.
  destruct (handle_cases i net g)
    as (pre & Hs & Hl & [-> | [[w ->] | (call & errlog & ->)]]);
    cbn [trace_of result_of globals_after fst snd].
  - rewrite Hs, !Hl. cbn. repeat split; (done || lia).
  - rewrite sends_app, !logs_app, Hs, !Hl. cbn. repeat split; (done || lia).
  - rewrite !sends_app, !logs_app, Hs, !Hl.
    destruct (net call) as [e|] eqn:Hnet; cbn; (repeat split); try (done || lia).
    intros _. by exists call, e.
Qed.

(** X4: a handler makes an outbound call only for a message that passed
    every filter, and only to the send target registered for the channel
    its source channel is paired with.  From Stoat: the author is not the
    bot, the content is not empty, and the call goes to the webhook
    registered under the Discord channel the Stoat channel resolves to.
    From Discord: the message is not one of a registered webhook, the
    content is not empty, and the call goes to the Stoat channel
    registered under the identifier the Discord channel resolves to. *)
Theorem relay_only_after_filters :
  (∀ self event net g c,
     c ∈ sends (trace_of (run (on_message_create self event) net g)) →
     Stoat.author_id (Stoat.message event) ≠ Stoat.me_id self ∧
     Stoat.content (Stoat.message event) ≠ "" ∧
     ∃ d wh, resolve_to_discord g (Stoat.channel_id (Stoat.message event)) = Some d ∧
             discord_webhooks g !! d = Some wh ∧
             c = stoat_outbound wh (Stoat.message event))
  ∧
  (∀ self message net g c,
     c ∈ sends (trace_of (run (on_message self message) net g)) →
     ¬ dropped_as_own_webhook g message ∧
     Discord.content message ≠ "" ∧
     ∃ s ch, resolve_to_stoat g (Discord.channel_id message) = Some s ∧
             stoat_channels g !! s = Some ch ∧
             c = discord_outbound ch message).
Proof.
  split.
  - intros self event net g c Hc. split; [|split].
    + intros Hself. rewrite stoat_run_self in Hc by done. by apply elem_of_nil in Hc.
    + intros Hempty. rewrite stoat_run_empty in Hc by done. by apply elem_of_nil in Hc.
    + by apply on_message_create_sends in Hc.
  - intros self message net g c Hc. split; [|split].
    + intros Hdrop. rewrite discord_run_own_webhook in Hc by done.
      by apply elem_of_nil in Hc.
    + intros Hempty. rewrite discord_run_empty in Hc by done.
      cbn [trace_of snd] in Hc. rewrite (proj1 (echo_reads_quiet message)) in Hc.
      by apply elem_of_nil in Hc.
    + by apply on_message_sends in Hc.
Qed.

Lemma relay_only_after_filters_witness :
  ∃ d wh, resolve_to_discord Samples.ready "st1" = Some d ∧
          discord_webhooks Samples.ready !! d = Some wh ∧
          webhook_send (mkWebhook 77 "Stoat Bridge") "hello" "alice" None true
            = stoat_outbound wh (Stoat.message (Samples.stoat_msg "u1" "st1" "hello")).
Proof.
  apply (proj1 relay_only_after_filters Samples.stoat_bot
           (Samples.stoat_msg "u1" "st1" "hello") Samples.net_ok Samples.ready).
  apply (list_elem_of_lookup_2 _ 0%nat). by vm_compute.
Defined.

(** X5: every outbound call a handler makes carries between 1 and 2000
    characters of content, and a name override of at most 80 characters
    towards Discord and at most 32 towards Stoat. *)
Theorem outbound_payload_bounds (i : inbound) (net : network) (g : globals)
    (c : send_call) :
  c ∈ sends (trace_of (run (handle i) net g)) →
  match c with
  | webhook_send _ content username _ _ =>
      (1 ≤ String.length content ≤ 2000)%nat ∧ (String.length username ≤ 80)%nat
  | channel_send _ content masquerade =>
      (1 ≤ String.length content ≤ 2000)%nat ∧
      (String.length (Stoat.masq_name masquerade) ≤ 32)%nat
  end.
Proof.
  assert (Hlen : ∀ s, s ≠ "" → (1 ≤ String.length (Py.slice_to 2000 s) ≤ 2000)%nat).
  { intros s Hs. rewrite slice_to_length. destruct s; [done|]. cbn [String.length]. lia. }
  destruct i as [self event | self message]; cbn [handle]; intros Hc.
  - assert (Stoat.content (Stoat.message event) ≠ "") as Htext.
    { intros Hempty. rewrite stoat_run_empty in Hc by done. by apply elem_of_nil in Hc. }
    apply on_message_create_sends in Hc as (d & wh & _ & _ & ->).
    unfold stoat_outbound. split; [by apply Hlen|]. rewrite slice_to_length. lia.
  - assert (Discord.content message ≠ "") as Htext.
    { intros Hempty. rewrite discord_run_empty in Hc by done.
      cbn [trace_of snd] in Hc. rewrite (proj1 (echo_reads_quiet message)) in Hc.
      by apply elem_of_nil in Hc. }
    apply on_message_sends in Hc as (s & ch & _ & _ & ->).
    unfold discord_outbound. split; [by apply Hlen|].
    cbn [Stoat.masq_name]. rewrite slice_to_length. lia.
Qed.

Lemma outbound_payload_bounds_witness :
  (1 ≤ String.length (Py.slice_to 2000 (Samples.repeat_char "x" 3000)) ≤ 2000)%nat ∧
  (String.length (Py.slice_to 32 "bob") ≤ 32)%nat.
Proof.
  apply (outbound_payload_bounds
           (DiscordMessage Samples.discord_bot
              (Samples.discord_msg None 10 (Samples.repeat_char "x" 3000) Samples.bob))
           Samples.net_ok Samples.ready
           (channel_send (mkStoatChannel "st1" "general")
              (Py.slice_to 2000 (Samples.repeat_char "x" 3000))
              (Stoat.mkMasquerade (Py.slice_to 32 "bob")
                 "https://cdn.example/embed/avatars/0.png"))).
  apply (list_elem_of_lookup_2 _ 0%nat). by vm_compute.
Defined.



(** ** The configuration *)

Lemma append_cons (c : ascii) (s t : string) : String c s +:+ t = String c (s +:+ t).
Proof. reflexivity. Qed.

Lemma split_nonempty (sep : ascii) (s : string) : PyStr.split sep s ≠ [].
Proof.
  destruct s as [|c s]; [done|]. cbn -[Ascii.eqb].
  destruct (Ascii.eqb c sep); [done|]. by destruct (PyStr.split sep s).
Qed.

(** Splitting distributes over a separator. *)
Lemma split_app_sep (sep : ascii) (a b : string) :
  PyStr.split sep (a +:+ String sep b) = PyStr.split sep a ++ PyStr.split sep b.
Proof.
  induction a as [|c a IH].
  - change ("" +:+ String sep b) with (String sep b).
    cbn -[Ascii.eqb]. by rewrite Ascii.eqb_refl.
  - rewrite append_cons. cbn -[Ascii.eqb]. rewrite IH.
    destruct (Ascii.eqb c sep); [done|].
    pose proof (split_nonempty sep a). by destruct (PyStr.split sep a).
Qed.

(** No piece of a split holds the separator. *)
Lemma split_pieces_free (sep : ascii) (s piece : string) :
  piece ∈ PyStr.split sep s → ¬ In sep (list_ascii_of_string piece).
Proof.
  revert piece. induction s as [|c s IH]; intros piece; cbn -[Ascii.eqb].
  - intros ->%list_elem_of_singleton. by intros [].
  - destruct (Ascii.eqb_spec c sep) as [-> | Hne].
    + intros [-> | Hin]%elem_of_cons; [by intros [] | by apply IH].
    + pose proof (split_nonempty sep s).
      destruct (PyStr.split sep s) as [|h t]; [done|].
      intros [-> | Hin]%elem_of_cons.
      * cbn. intros [Heq | Hin]; [done|]. revert Hin. apply IH. by left.
      * apply IH. by right.
Qed.

Section strip.
Variable isspace : ascii → bool.

Lemma lstrip_chars (c : ascii) (s : string) :
  In c (list_ascii_of_string (PyStr.lstrip isspace s)) → In c (list_ascii_of_string s).
Proof.
  induction s as [|a s IH]; cbn; [done|].
  destruct (isspace a); [by right; apply IH | done].
Qed.

Lemma rstrip_chars (c : ascii) (s : string) :
  In c (list_ascii_of_string (PyStr.rstrip isspace s)) → In c (list_ascii_of_string s).
Proof.
  induction s as [|a s IH]; cbn; [done|].
  destruct (PyStr.rstrip isspace s) as [|b r] eqn:Hr.
  - destruct (isspace a); cbn; [done | by intros [-> | []]; left].
  - cbn. intros [-> | Hin]; [by left | right; by apply IH].
Qed.

Lemma lstrip_head (s : string) (c : ascii) (rest : string) :
  PyStr.lstrip isspace s = String c rest → isspace c = false.
Proof.
  induction s as [|a s IH]; cbn; [done|].
  destruct (isspace a) eqn:Ha; [done|]. by intros [= <- _].
Qed.

Lemma rstrip_keeps_head (c : ascii) (s : string) :
  isspace c = false → ∃ rest, PyStr.rstrip isspace (String c s) = String c rest.
Proof.
  intros Hc. cbn. rewrite Hc.
  destruct (PyStr.rstrip isspace s); by eexists.
Qed.

Lemma rstrip_last (s front : string) (c : ascii) :
  PyStr.rstrip isspace s = front +:+ String c "" → isspace c = false.
Proof.
  revert front. induction s as [|a s IH]; intros front; cbn.
  - by destruct front.
  - destruct (PyStr.rstrip isspace s) as [|b r] eqn:Hr.
    + destruct (isspace a) eqn:Ha; [by destruct front|].
      destruct front as [|f front]; [by intros [= <-]|].
      rewrite append_cons. intros [= _ Habs]. by destruct front.
    + destruct front as [|f front]; [done|].
      rewrite append_cons. intros [= _ Hfront]. by apply (IH front).
Qed.

(** A stripped string has no white space at either end. *)
Lemma strip_ends (s : string) :
  (∀ c rest, PyStr.strip isspace s = String c rest → isspace c = false) ∧
  (∀ front c, PyStr.strip isspace s = front +:+ String c "" → isspace c = false).
Proof.
  unfold PyStr.strip. split.
  - intros c rest. destruct (PyStr.lstrip isspace s) as [|a l] eqn:Hl; [done|].
    pose proof (lstrip_head _ _ _ Hl) as Ha.
    destruct (rstrip_keeps_head a l Ha) as [r ->]. by intros [= <- _].
  - intros front c. apply rstrip_last.
Qed.

Lemma strip_chars (c : ascii) (s : string) :
  In c (list_ascii_of_string (PyStr.strip isspace s)) → In c (list_ascii_of_string s).
Proof. intros Hin. by apply lstrip_chars, rstrip_chars. Qed.
End strip.

(** X6: every Stoat channel identifier the configuration yields is clean:
    it is not empty, holds no comma, and has no white space at its first
    or at its last character, whatever the raw value of the variable. *)
Theorem stoat_ids_clean (isspace : ascii → bool) (raw id : string) :
  id ∈ stoat_ids_of isspace raw →
  id ≠ "" ∧
  ¬ In ","%char (list_ascii_of_string id) ∧
  (∀ c rest, id = String c rest → isspace c = false) ∧
  (∀ front c, id = front +:+ String c "" → isspace c = false).
Proof.
  unfold stoat_ids_of. rewrite list_elem_of_In, in_map_iff.
  intros (x & <- & [Hx Hkeep]%filter_In). split; [|split].
  - by destruct (PyStr.strip isspace x).
  - intros Hin%strip_chars. revert Hin. apply split_pieces_free with (s := raw).
    by apply list_elem_of_In.
  - apply strip_ends.
Qed.

Lemma stoat_ids_clean_witness :
  "aaa" ≠ "" ∧ ¬ In ","%char (list_ascii_of_string "aaa").
Proof.
  destruct (stoat_ids_clean PyStr.isspace_latin1 " aaa ,bbb" "aaa") as (Hne & Hcomma & _).
  - apply (list_elem_of_lookup_2 _ 0%nat). by vm_compute.
  - exact (conj Hne Hcomma).
Defined.

Section configuration_facts.
Variable isspace : ascii → bool.
Variable py_int : string → Py.exc + Z.

Lemma ints_of_app (xs ys : list string) :
  ints_of isspace py_int (xs ++ ys) =
  match ints_of isspace py_int xs with
  | inl e => inl e
  | inr zs =>
      match ints_of isspace py_int ys with
      | inl e => inl e
      | inr zs' => inr (zs ++ zs')
      end
  end.
Proof.
  induction xs as [|x xs IH]; cbn.
  - by destruct (ints_of isspace py_int ys).
  - destruct (Py.truthy_str (PyStr.strip isspace x)); [|done].
    destruct (py_int (PyStr.strip isspace x)); [done|]. rewrite IH.
    destruct (ints_of isspace py_int xs); [done|].
    by destruct (ints_of isspace py_int ys).
Qed.

(** X7: the entries of an identifier list are read one by one.  The
    identifiers of two raw values joined by a comma are the identifiers
    of the first followed by those of the second, for Stoat and, as long
    as [int] accepts every entry, for Discord; the first entry [int]
    rejects decides the exception.  An empty raw value gives no
    identifier, so a comma at the end changes nothing. *)
Theorem ids_of_joined (a b : string) :
  stoat_ids_of isspace (a +:+ "," +:+ b) = stoat_ids_of isspace a ++ stoat_ids_of isspace b ∧
  discord_ids_of isspace py_int (a +:+ "," +:+ b) =
    match discord_ids_of isspace py_int a with
    | inl e => inl e
    | inr ds =>
        match discord_ids_of isspace py_int b with
        | inl e => inl e
        | inr ds' => inr (ds ++ ds')
        end
    end ∧
  stoat_ids_of isspace "" = [] ∧
  discord_ids_of isspace py_int "" = inr [] ∧
  stoat_ids_of isspace (a +:+ ",") = stoat_ids_of isspace a.
Proof.
  assert (Hjoin : ∀ b', stoat_ids_of isspace (a +:+ "," +:+ b') =
                        stoat_ids_of isspace a ++ stoat_ids_of isspace b').
  { intros b'. unfold stoat_ids_of.
    change (a +:+ "," +:+ b') with (a +:+ String "," b').
    by rewrite split_app_sep, List.filter_app, List.map_app. }
  split; [apply Hjoin|]. split; [|split; [done|split; [done|]]].
  - unfold discord_ids_of.
    change (a +:+ "," +:+ b) with (a +:+ String "," b).
    by rewrite split_app_sep, ints_of_app.
  - change (a +:+ ",") with (a +:+ "," +:+ ""). rewrite Hjoin. apply app_nil_r.
Qed.
End configuration_facts.

(** ** The start of the program *)

Lemma for_each_logs {A} (xs : list A) (body : A → M unit) (line : A → string) net g :
  (∀ x, body x net g = (Returned tt, g, [Log INFO (line x)])) →
  for_each xs body net g = (Returned tt, g, (λ x, Log INFO (line x)) <$> xs).
Proof.
  intros Hbody. induction xs as [|x xs IH]; [done|].
  cbn [for_each]. step_M. by rewrite Hbody, IH.
Qed.

(** The test of line 224. *)
Lemma config_complete (cfg : config) :
  Py.truthy_str (DISCORD_BOT_TOKEN cfg) && Py.truthy_str (STOAT_BOT_TOKEN cfg)
    && negb (bool_decide (DISCORD_CHANNEL_IDS cfg = []))
    && negb (bool_decide (STOAT_CHANNEL_IDS cfg = [])) =
  bool_decide (DISCORD_BOT_TOKEN cfg ≠ "" ∧ STOAT_BOT_TOKEN cfg ≠ "" ∧
               DISCORD_CHANNEL_IDS cfg ≠ [] ∧ STOAT_CHANNEL_IDS cfg ≠ []).
Proof.
  destruct cfg as [dt st ds ss]; cbn [DISCORD_BOT_TOKEN STOAT_BOT_TOKEN
                                      DISCORD_CHANNEL_IDS STOAT_CHANNEL_IDS].
  symmetry.
  destruct dt, st, ds, ss;
    (rewrite bool_decide_eq_true_2 by done) || (rewrite bool_decide_eq_false_2 by (by intros (?&?&?&?)));
    try (rewrite !(bool_decide_eq_false_2 (_ :: _ = [])) by done);
    try (rewrite !(bool_decide_eq_true_2 ([] = [])) by done); done.
Qed.

(** The two ways [main] can go before it starts the clients. *)
Lemma main_startup_run (cfg : config) net g :
  run (main_startup cfg) net g =
    if bool_decide (DISCORD_BOT_TOKEN cfg ≠ "" ∧ STOAT_BOT_TOKEN cfg ≠ "" ∧
                    DISCORD_CHANNEL_IDS cfg ≠ [] ∧ STOAT_CHANNEL_IDS cfg ≠ [])
    then (Returned tt, g,
          Log INFO ("Bridge starting with " +:+ Py.str_int (Z.of_nat (PAIR_COUNT g))
                      +:+ " channel pair(s)...")
          :: ((λ '(i, (d, s)), Log INFO (pair_line i d s))
                <$> enumerate (zip (DISCORD_CHANNEL_IDS cfg) (STOAT_CHANNEL_IDS cfg)) 1))
    else (Raised missing_configuration, g, []).
Proof.
  unfold main_startup. rewrite config_complete.
  case_bool_decide; [|done]. unfold run. step_M.
  rewrite (for_each_logs _ _ (λ '(i, (d, s)), pair_line i d s)); [|by intros [i [d' s']]].
  cbn [app]. f_equal. f_equal. apply list_fmap_ext. by intros ? [i [d' s']].
Qed.

Section startup_facts.
Variable isspace : ascii → bool.
Variable py_int : string → Py.exc + Z.

(** When the module body runs to its end the two lists have the same
    length and the globals are those of [load_module]. *)
Lemma exec_script_inr (environ : gmap string string) (cfg : config) (g : globals) :
  exec_script isspace py_int environ = inr (cfg, g) →
  exec_config isspace py_int environ = inr cfg ∧
  length (DISCORD_CHANNEL_IDS cfg) = length (STOAT_CHANNEL_IDS cfg) ∧
  load_module (DISCORD_CHANNEL_IDS cfg) (STOAT_CHANNEL_IDS cfg) = Some g.
Proof.
  unfold exec_script. destruct (exec_config isspace py_int environ) as [e|cfg']; [done|].
  destruct (decide (length (DISCORD_CHANNEL_IDS cfg') = length (STOAT_CHANNEL_IDS cfg')))
    as [Hlen | Hlen].
  - destruct (load_module_equal_length _ _ Hlen) as [-> Hload].
    cbn. by intros [= <- <-].
  - unfold exec_module. by rewrite (proj2 (Nat.eqb_neq _ _) Hlen).
Qed.

Lemma enumerate_lookup {A} (xs : list A) (start i : nat) (x : A) :
  xs !! i = Some x → enumerate xs start !! i = Some ((start + i)%nat, x).
Proof.
  intros Hx. unfold enumerate. apply lookup_zip_Some. split; [|done].
  apply lookup_seq. split; [done|]. by apply lookup_lt_Some in Hx.
Qed.

(** X8: if the program gets as far as starting the two clients, then both
    tokens are non-empty, the two identifier lists have the same length,
    which is [PAIR_COUNT] and at least 1, the pair table is the one built
    from the lists, both registries are still empty, and the log holds one
    header line and then one line per pair, numbered from 1 in the order
    of the lists. *)
Theorem startup_ready (environ : gmap string string) (cfg : config) (g : globals)
    (t : list effect) :
  startup isspace py_int environ = inr (cfg, g, t) →
  DISCORD_BOT_TOKEN cfg ≠ "" ∧ STOAT_BOT_TOKEN cfg ≠ "" ∧
  (1 ≤ PAIR_COUNT g)%nat ∧
  length (DISCORD_CHANNEL_IDS cfg) = PAIR_COUNT g ∧
  length (STOAT_CHANNEL_IDS cfg) = PAIR_COUNT g ∧
  load_module (DISCORD_CHANNEL_IDS cfg) (STOAT_CHANNEL_IDS cfg) = Some g ∧
  discord_webhooks g = ∅ ∧ stoat_channels g = ∅ ∧
  length t = S (PAIR_COUNT g) ∧
  (∀ i d s,
     DISCORD_CHANNEL_IDS cfg !! i = Some d → STOAT_CHANNEL_IDS cfg !! i = Some s →
     t !! S i = Some (Log INFO (pair_line (S i) d s))).
Proof.
  unfold startup.
  destruct (exec_script isspace py_int environ) as [e | [cfg' g']] eqn:Hscript; [done|].
  apply exec_script_inr in Hscript as (_ & Hlen & Hload).
  rewrite main_startup_run. case_bool_decide as Hok; [|done].
  intros [= -> -> <-]. destruct Hok as (Hdt & Hst & Hds & Hss).
  destruct (load_module_equal_length _ _ Hlen) as [_ Hg].
  rewrite Hg in Hload. injection Hload as <-. cbn [PAIR_COUNT discord_webhooks stoat_channels].
  repeat split; try done.
  - destruct (DISCORD_CHANNEL_IDS cfg); [done | cbn; lia].
  - cbn. rewrite length_fmap. unfold enumerate.
    rewrite length_zip_with_r_eq, length_zip_with_l_eq by (by rewrite ?length_seq, ?length_zip_with_l_eq).
    done.
  - intros i d s Hd Hs. rewrite lookup_cons.
    rewrite list_lookup_fmap.
    rewrite (enumerate_lookup _ 1 i (d, s)); [done|]. by apply lookup_zip_Some.
Qed.

(** X9: an identifier list that is missing from the environment stops
    the program with the [AttributeError] of [None.split], and an entry
    that [int] rejects stops it with the exception of [int]; in neither
    case does the program get to the configuration check of [main]. *)
Theorem startup_config_errors (environ : gmap string string) :
  (environ !! "DISCORD_CHANNEL_IDS" = None →
   startup isspace py_int environ = inl none_has_no_split) ∧
  (∀ raw e, environ !! "DISCORD_CHANNEL_IDS" = Some raw →
     discord_ids_of isspace py_int raw = inl e →
     startup isspace py_int environ = inl e) ∧
  (∀ raw ds, environ !! "DISCORD_CHANNEL_IDS" = Some raw →
     discord_ids_of isspace py_int raw = inr ds →
     environ !! "STOAT_CHANNEL_IDS" = None →
     startup isspace py_int environ = inl none_has_no_split).
Proof.
  unfold startup, exec_script, exec_config. split; [|split].
  - by intros ->.
  - intros raw e -> Hraw. by rewrite Hraw.
  - intros raw ds -> Hraw Hstoat. by rewrite Hraw, Hstoat.
Qed.

(** X10: once the module body has run to its end, [main] raises its
    [RuntimeError] for a missing configuration exactly when a token is
    empty or the identifier lists are empty, and it does so before
    writing any log record. *)
Theorem startup_missing_configuration (environ : gmap string string) (cfg : config)
    (g : globals) :
  exec_script isspace py_int environ = inr (cfg, g) →
  (startup isspace py_int environ = inl missing_configuration ↔
   DISCORD_BOT_TOKEN cfg = "" ∨ STOAT_BOT_TOKEN cfg = "" ∨ DISCORD_CHANNEL_IDS cfg = [])
  ∧ (startup isspace py_int environ = inl missing_configuration →
     trace_of (run (main_startup cfg) (λ _, None) g) = []).
Proof.
  intros Hscript. unfold startup. rewrite Hscript.
  apply exec_script_inr in Hscript as (_ & Hlen & _).
  rewrite main_startup_run. case_bool_decide as Hok.
  - split; [|done]. split; [done|]. destruct Hok as (? & ? & ? & ?). by intros [? | [? | ?]].
  - split; [|done]. split; [|done]. intros _.
    destruct (DISCORD_BOT_TOKEN cfg); [by left|].
    destruct (STOAT_BOT_TOKEN cfg); [by right; left|].
    destruct (DISCORD_CHANNEL_IDS cfg); [by right; right|].
    destruct (STOAT_CHANNEL_IDS cfg); [done|]. by destruct Hok.
Qed.
End startup_facts.

Lemma startup_ready_witness :
  (1 ≤ PAIR_COUNT Samples2.loaded)%nat ∧
  [Log INFO "Bridge starting with 2 channel pair(s)...";
   Log INFO "  Pair 1: Discord 111 <-> Stoat aaa";
   Log INFO "  Pair 2: Discord 222 <-> Stoat bbb"] !! 2%nat
    = Some (Log INFO (pair_line 2 222 "bbb")).
Proof.
  destruct (startup_ready PyStr.isspace_latin1 Samples2.int
              Samples2.environ Samples2.cfg Samples2.loaded
              [Log INFO "Bridge starting with 2 channel pair(s)...";
               Log INFO "  Pair 1: Discord 111 <-> Stoat aaa";
               Log INFO "  Pair 2: Discord 222 <-> Stoat bbb"])
    as (_ & _ & Hcount & _ & _ & _ & _ & _ & _ & Hline).
  - by vm_compute.
  - split; [exact Hcount|]. by apply (Hline 1%nat).
Defined.

Lemma startup_config_errors_witness :
  startup PyStr.isspace_latin1 Samples2.int
    (delete "STOAT_CHANNEL_IDS" Samples2.environ) = inl none_has_no_split.
Proof.
  apply (proj2 (proj2 (startup_config_errors PyStr.isspace_latin1 Samples2.int
                         (delete "STOAT_CHANNEL_IDS" Samples2.environ)))
           "111, 222," [111; 222]); by vm_compute.
Defined.

Lemma startup_missing_configuration_witness :
  startup PyStr.isspace_latin1 Samples2.int
    (<["DISCORD_BOT_TOKEN" := ""]> Samples2.environ) = inl missing_configuration.
Proof.
  apply (proj1 (startup_missing_configuration PyStr.isspace_latin1 Samples2.int
                  (<["DISCORD_BOT_TOKEN" := ""]> Samples2.environ)
                  (mkConfig "" "s-token" [111; 222] ["aaa"; "bbb"]) Samples2.loaded
                  ltac:(by vm_compute))).
  by left.
Defined.

(** ** The setup routines *)

Ltac step_Setup :=
  cbv beta iota zeta delta
    [setup_run mbind Setup_bind mret Setup_ret setup_try api_call api_log
     api_get_channel stoat_channels_set discord_webhooks_set ask_platform
     setup_globals].

(** The two ways one round of the loop of [StoatBot.on_ready] can go. *)
Lemma fetch_one_run (stoat_id : string) (p : platform) (g : globals)
    (h : list api_event) :
  StoatBot.fetch_one stoat_id p (g, h) =
  match stoat_fetch_channel p h stoat_id with
  | inr ch =>
      (Returned tt,
       (store_stoat_channel stoat_id ch g,
        h ++ [StoatFetchChannel stoat_id (inr ch);
              ApiLog INFO ("Stoat: listening in #" +:+ sc_name ch +:+ " (id="
                             +:+ stoat_id +:+ ")")]))
  | inl e =>
      (Returned tt,
       (g, h ++ [StoatFetchChannel stoat_id (inl e);
                 ApiLog ERROR ("Stoat: could not fetch channel " +:+ stoat_id
                                 +:+ " – " +:+ Py.exc_text e)]))
  end.
Proof.
  unfold StoatBot.fetch_one. step_Setup.
  destruct (stoat_fetch_channel p h stoat_id); by rewrite <- app_assoc.
Qed.

Lemma api_logs_app lvl (h1 h2 : list api_event) :
  api_logs lvl (h1 ++ h2) = api_logs lvl h1 ++ api_logs lvl h2.
Proof. apply omap_app. Qed.

(** What the loop of [StoatBot.on_ready] does to the registry and to the
    history, whatever the platform answers. *)
Lemma stoat_fetch_loop (ids : list string) (p : platform) (g : globals)
    (h : list api_event) :
  ∃ g' t,
    setup_for ids StoatBot.fetch_one p (g, h) = (Returned tt, (g', h ++ t)) ∧
    same_but_stoat_channels g g' ∧
    (∀ k ch, stoat_channels g' !! k = Some ch →
       stoat_channels g !! k = Some ch ∨
       (k ∈ ids ∧ StoatFetchChannel k (inr ch) ∈ t)) ∧
    (∀ k, is_Some (stoat_channels g !! k) → is_Some (stoat_channels g' !! k)) ∧
    (∀ k ch, StoatFetchChannel k (inr ch) ∈ t → is_Some (stoat_channels g' !! k)) ∧
    (∀ k, k ∈ ids → ∃ r, StoatFetchChannel k r ∈ t) ∧
    (∀ k r, StoatFetchChannel k r ∈ t → ∃ h', r = stoat_fetch_channel p h' k) ∧
    (∀ msg, msg ∈ api_logs ERROR t → ∃ k e, StoatFetchChannel k (inl e) ∈ t) ∧
    (length (api_logs INFO t) + length (api_logs ERROR t))%nat = length ids ∧
    api_logs WARNING t = [].
Proof.
  revert g h. induction ids as [|id ids IH]; intros g h.
  - exists g, []. rewrite app_nil_r. split; [done|]. split; [done|].
    split; [by left|]. split; [done|].
    split; [by intros ?? ?%elem_of_nil|]. split; [by intros ? ?%elem_of_nil|].
    split; [by intros ?? ?%elem_of_nil|]. split; [by intros ? ?%elem_of_nil|]. done.
  - cbn [setup_for]. step_Setup. rewrite fetch_one_run.
    destruct (stoat_fetch_channel p h id) as [e|ch] eqn:Hfetch.
    + destruct (IH g (h ++ [StoatFetchChannel id (inl e);
                            ApiLog ERROR ("Stoat: could not fetch channel " +:+ id
                                            +:+ " – " +:+ Py.exc_text e)]))
        as (g' & t & -> & Hsame & Hnew & Hold & Hok & Hall & Hplat & Herr & Hlen & Hwarn).
      exists g', ([StoatFetchChannel id (inl e);
                   ApiLog ERROR ("Stoat: could not fetch channel " +:+ id
                                   +:+ " – " +:+ Py.exc_text e)] ++ t).
      rewrite <- app_assoc. split; [done|]. split; [done|]. split; [|split; [done|]].
      { intros k ch [? | [Hk Hin]]%Hnew; [by left|]. right.
        split; [by right | by apply elem_of_app; right]. }
      split. { intros k ch [[|[|]]%list_elem_of_In | Hin]%elem_of_app; try done. eauto. }
      split. { intros k [-> | Hk]%elem_of_cons.
               - eexists. by left.
               - destruct (Hall k Hk) as [r Hr]. exists r. by apply elem_of_app; right. }
      split. { intros k r [[Heq|[|]]%list_elem_of_In | Hin]%elem_of_app; try done.
               - injection Heq as <- <-. by exists h.
               - eauto. }
      split. { intros msg _. exists id, e. by left. }
      rewrite !api_logs_app, Hwarn. cbn. repeat case_decide; try done.
      cbn. split; [lia | done].
    + destruct (IH (store_stoat_channel id ch g)
                  (h ++ [StoatFetchChannel id (inr ch);
                         ApiLog INFO ("Stoat: listening in #" +:+ sc_name ch +:+ " (id="
                                        +:+ id +:+ ")")]))
        as (g' & t & -> & Hsame & Hnew & Hold & Hok & Hall & Hplat & Herr & Hlen & Hwarn).
      exists g', ([StoatFetchChannel id (inr ch);
                   ApiLog INFO ("Stoat: listening in #" +:+ sc_name ch +:+ " (id="
                                  +:+ id +:+ ")")] ++ t).
      rewrite <- app_assoc. split; [done|]. split; [done|]. split; [|split].
      { intros k ch' [Hk | [Hk Hin]]%Hnew.
        - cbn in Hk. apply lookup_insert_Some in Hk as [[<- <-] | [_ Hk]]; [|by left].
          right. split; by left.
        - right. split; [by right | by apply elem_of_app; right]. }
      { intros k Hk. apply Hold. cbn. apply lookup_insert_is_Some'. by right. }
      split. { intros k ch' [[Heq|[|]]%list_elem_of_In | Hin]%elem_of_app; try done.
               - injection Heq as <- <-. apply Hold. cbn. rewrite lookup_insert_eq. by eexists.
               - eauto. }
      split. { intros k [-> | Hk]%elem_of_cons.
               - eexists. by left.
               - destruct (Hall k Hk) as [r Hr]. exists r. by apply elem_of_app; right. }
      split. { intros k r [[Heq|[|]]%list_elem_of_In | Hin]%elem_of_app; try done.
               - injection Heq as <- <-. by exists h.
               - eauto. }
      split. { intros msg Hmsg. rewrite api_logs_app in Hmsg. cbn in Hmsg.
               destruct (Herr msg Hmsg) as (k & e & Hin).
               exists k, e. by apply elem_of_app; right. }
      rewrite !api_logs_app, Hwarn. cbn. repeat case_decide; try done.
      cbn. split; [lia | done].
Qed.

Lemma stoat_on_ready_run (self : Stoat.Client) (cfg : config) (p : platform)
    (g : globals) (h : list api_event) :
  setup_run (StoatBot.on_ready self cfg) p g h =
  setup_for (STOAT_CHANNEL_IDS cfg) StoatBot.fetch_one p
    (g, h ++ [ApiLog INFO ("Stoat: connected as " +:+ str_me p)]).
Proof. reflexivity. Qed.

(** X11: [StoatBot.on_ready] never raises and changes nothing but the
    registry of Stoat channels.  It fetches every configured identifier,
    never removes an entry, and an entry that is new or changed stands
    under a configured identifier and holds a channel that a fetch of that
    identifier returned during the run.  It writes the connection line
    and then one record per configured identifier, never a warning. *)
Theorem stoat_on_ready_registry (self : Stoat.Client) (cfg : config) (p : platform)
    (g : globals) (h : list api_event) :
  ∃ g' t,
    setup_run (StoatBot.on_ready self cfg) p g h = (Returned tt, (g', h ++ t)) ∧
    same_but_stoat_channels g g' ∧
    (∀ k, k ∈ STOAT_CHANNEL_IDS cfg → ∃ r, StoatFetchChannel k r ∈ t) ∧
    (∀ k, is_Some (stoat_channels g !! k) → is_Some (stoat_channels g' !! k)) ∧
    (∀ k ch, stoat_channels g' !! k = Some ch →
       stoat_channels g !! k = Some ch ∨
       (k ∈ STOAT_CHANNEL_IDS cfg ∧ StoatFetchChannel k (inr ch) ∈ t)) ∧
    (length (api_logs INFO t) + length (api_logs ERROR t))%nat
      = S (length (STOAT_CHANNEL_IDS cfg)) ∧
    api_logs WARNING t = [].
Proof.
  rewrite stoat_on_ready_run.
  destruct (stoat_fetch_loop (STOAT_CHANNEL_IDS cfg) p g
              (h ++ [ApiLog INFO ("Stoat: connected as " +:+ str_me p)]))
    as (g' & t & -> & Hsame & Hnew & Hold & Hok & Hall & Hplat & Herr & Hlen & Hwarn).
  exists g', ([ApiLog INFO ("Stoat: connected as " +:+ str_me p)] ++ t).
  rewrite <- app_assoc. split; [done|]. split; [done|]. split; [|split; [done|split]].
  - intros k [r Hr]%Hall. exists r. by right.
  - intros k ch [? | [Hk Hin]]%Hnew; [by left|]. right. split; [done | by right].
  - rewrite !api_logs_app, Hwarn. cbn. repeat case_decide; try done.
    cbn. split; [lia | done].
Qed.

(** X12: when every fetch succeeds, [StoatBot.on_ready] leaves a registry
    entry for every configured Stoat identifier and writes no error
    record. *)
Theorem stoat_on_ready_all_fetched (self : Stoat.Client) (cfg : config)
    (p : platform) (g : globals) (h : list api_event) :
  stoat_up p →
  ∃ g' t,
    setup_run (StoatBot.on_ready self cfg) p g h = (Returned tt, (g', h ++ t)) ∧
    (∀ k, k ∈ STOAT_CHANNEL_IDS cfg → is_Some (stoat_channels g' !! k)) ∧
    api_logs ERROR t = [] ∧
    length (api_logs INFO t) = S (length (STOAT_CHANNEL_IDS cfg)).
Proof.
  intros Hup. rewrite stoat_on_ready_run.
  destruct (stoat_fetch_loop (STOAT_CHANNEL_IDS cfg) p g
              (h ++ [ApiLog INFO ("Stoat: connected as " +:+ str_me p)]))
    as (g' & t & -> & Hsame & Hnew & Hold & Hok & Hall & Hplat & Herr & Hlen & Hwarn).
  exists g', ([ApiLog INFO ("Stoat: connected as " +:+ str_me p)] ++ t).
  rewrite <- app_assoc. split; [done|].
  assert (api_logs ERROR t = []) as Hnoerr.
  { destruct (api_logs ERROR t) as [|msg l] eqn:Hlogs; [done|].
    destruct (Herr msg) as (k & e & Hin); [by left|].
    destruct (Hplat _ _ Hin) as [h' Hh']. destruct (Hup h' k) as [ch Hch]. congruence. }
  split; [|split].
  - intros k [r Hr]%Hall. destruct (Hplat _ _ Hr) as [h' ->].
    destruct (Hup h' k) as [ch Hch]. rewrite Hch in Hr. by apply (Hok k ch).
  - rewrite api_logs_app, Hnoerr. cbn. by repeat case_decide.
  - rewrite api_logs_app. rewrite Hnoerr in Hlen. cbn [length] in Hlen.
    cbn. repeat case_decide; try done. cbn. lia.
Qed.

Lemma stoat_on_ready_all_fetched_witness :
  ∃ g' t,
    setup_run (StoatBot.on_ready Samples.stoat_bot Samples2.cfg)
      Samples2.platform_up Samples2.loaded [] = (Returned tt, (g', [] ++ t)) ∧
    (∀ k, k ∈ ["aaa"; "bbb"] → is_Some (stoat_channels g' !! k)) ∧
    api_logs ERROR t = [] ∧ length (api_logs INFO t) = 3%nat.
Proof.
  apply (stoat_on_ready_all_fetched Samples.stoat_bot Samples2.cfg
           Samples2.platform_up Samples2.loaded []).
  intros h stoat_id. by eexists.
Defined.

(** X13: a Stoat channel whose fetch fails stays out of the registry, and
    its pair is then inert: after [StoatBot.on_ready], every Discord
    message that passes the filters and resolves to that channel is
    dropped with one warning and no outbound call. *)
Theorem stoat_fetch_failure_inert (self : Stoat.Client) (cfg : config)
    (p : platform) (g : globals) (h : list api_event) (s : string) :
  (∀ h', ∃ e, stoat_fetch_channel p h' s = inl e) →
  stoat_channels g !! s = None →
  ∃ g' h',
    setup_run (StoatBot.on_ready self cfg) p g h = (Returned tt, (g', h')) ∧
    stoat_channels g' !! s = None ∧
    ∀ bot message net,
      ¬ dropped_as_own_webhook g' message →
      resolve_to_stoat g' (Discord.channel_id message) = Some s →
      Discord.content message ≠ "" →
      sends (trace_of (run (on_message bot message) net g')) = [] ∧
      ∃ w, logs WARNING (trace_of (run (on_message bot message) net g')) = [w].
Proof.
  intros Hdown Hnone. rewrite stoat_on_ready_run.
  destruct (stoat_fetch_loop (STOAT_CHANNEL_IDS cfg) p g
              (h ++ [ApiLog INFO ("Stoat: connected as " +:+ str_me p)]))
    as (g' & t & -> & Hsame & Hnew & Hold & Hok & Hall & Hplat & Herr & Hlen & Hwarn).
  eexists g', _. split; [done|].
  assert (stoat_channels g' !! s = None) as Hstill.
  { destruct (stoat_channels g' !! s) as [ch|] eqn:Hs; [|done].
    apply Hnew in Hs as [Hs | [_ Hin]]; [congruence|].
    destruct (Hplat _ _ Hin) as [h' Hh']. destruct (Hdown h') as [e He]. congruence. }
  split; [done|]. intros bot message net Hkeep Hpair Htext.
  rewrite (discord_run_not_ready bot message net g' s Hkeep Hpair Htext Hstill).
  destruct (echo_reads_quiet message) as (Hs & Hl & _).
  cbn [trace_of snd]. rewrite sends_app, logs_app, Hs, Hl. split; [done | by eexists].
Qed.

Lemma stoat_fetch_failure_inert_witness :
  ∃ g' h',
    setup_run (StoatBot.on_ready Samples.stoat_bot Samples2.cfg)
      Samples2.platform_down Samples2.loaded [] = (Returned tt, (g', h')) ∧
    stoat_channels g' !! "aaa" = None ∧
    sends (trace_of (run (on_message Samples.discord_bot
                            (Samples.discord_msg None 111 "hi" Samples.bob))
                       Samples.net_ok g')) = [].
Proof.
  destruct (stoat_fetch_failure_inert Samples.stoat_bot Samples2.cfg
              Samples2.platform_down Samples2.loaded [] "aaa")
    as (g' & h' & Hrun & Hnone & Hinert).
  - intros h'. by eexists.
  - reflexivity.
  - exists g', h'. split; [exact Hrun|]. split; [exact Hnone|].
    apply (Hinert Samples.discord_bot (Samples.discord_msg None 111 "hi" Samples.bob)
             Samples.net_ok).
    + by intros (w & [=] & _).
    + injection Hrun as <- _. by vm_compute.
    + discriminate.
Defined.

(** How a channel is obtained: from the cache, or by a fetch that may
    raise.  Nothing else happens. *)
Lemma get_or_fetch_run (discord_id : Z) (p : platform) (g : globals)
    (h : list api_event) :
  ∃ pre,
    Forall (λ ev, match ev with
                  | GetChannel _ _ | FetchChannel _ _ => True
                  | _ => False
                  end) pre ∧
    ((∃ ch, DiscordBot.get_or_fetch_channel discord_id p (g, h)
              = (Returned ch, (g, h ++ pre)))
     ∨ (∃ e, DiscordBot.get_or_fetch_channel discord_id p (g, h)
               = (Raised e, (g, h ++ pre)) ∧
             ∃ h', discord_fetch_channel p h' discord_id = inl e)).
Proof.
  unfold DiscordBot.get_or_fetch_channel. step_Setup.
  destruct (discord_get_channel p h discord_id) as [ch|].
  - exists [GetChannel discord_id (Some ch)]. split; [by repeat constructor|].
    left. by exists ch.
  - destruct (discord_fetch_channel p (h ++ [GetChannel discord_id None]) discord_id)
      as [e|ch] eqn:Hfetch.
    + exists [GetChannel discord_id None; FetchChannel discord_id (inl e)].
      split; [by repeat constructor|]. right. exists e.
      rewrite <- app_assoc. split; [done | by eexists].
    + exists [GetChannel discord_id None; FetchChannel discord_id (inr ch)].
      split; [by repeat constructor|]. left. exists ch. by rewrite <- app_assoc.
Qed.

(** The four ways lines 165-176 can go. *)
Lemma reuse_or_create_run (self : Discord.Bot) (discord_id : Z)
    (channel : DiscordChannel) (p : platform) (g : globals) (h : list api_event) :
  DiscordBot.reuse_or_create self discord_id channel p (g, h) =
  match channel_webhooks p h channel with
  | inl e => (Raised e, (g, h ++ [Webhooks channel (inl e)]))
  | inr listed =>
      match List.find (DiscordBot.own_webhook self) listed with
      | Some wh =>
          (Returned tt,
           (store_discord_webhook discord_id (lw_webhook wh) g,
            h ++ [Webhooks channel (inr listed);
                  ApiLog INFO ("Discord: reusing webhook '" +:+ wh_name (lw_webhook wh)
                                 +:+ "' for channel " +:+ Py.str_int discord_id)]))
      | None =>
          match channel_create_webhook p (h ++ [Webhooks channel (inr listed)])
                  channel "Stoat Bridge" with
          | inr wh =>
              (Returned tt,
               (store_discord_webhook discord_id wh g,
                h ++ [Webhooks channel (inr listed);
                      CreateWebhook channel "Stoat Bridge" (inr wh);
                      ApiLog INFO ("Discord: created webhook for channel "
                                     +:+ Py.str_int discord_id)]))
          | inl e =>
              (Raised e,
               (g, h ++ [Webhooks channel (inr listed);
                         CreateWebhook channel "Stoat Bridge" (inl e)]))
          end
      end
  end.
Proof.
  unfold DiscordBot.reuse_or_create. step_Setup.
  destruct (channel_webhooks p h channel) as [e|listed]; [done|].
  destruct (List.find (DiscordBot.own_webhook self) listed) as [wh|].
  - by rewrite <- app_assoc.
  - destruct (channel_create_webhook p (h ++ [Webhooks channel (inr listed)])
                channel "Stoat Bridge"); by rewrite <- !app_assoc.
Qed.

(** One round of the loop of [_setup_webhooks]: it never raises; either
    a call failed, the registry is untouched and one error is logged, or
    a webhook is stored under the identifier, one listed as the bot's own
    or one just created, and one line is logged at level INFO. *)
Lemma setup_one_step (self : Discord.Bot) (discord_id : Z) (p : platform)
    (g : globals) (h : list api_event) :
  ∃ g' t,
    DiscordBot.setup_one self discord_id p (g, h) = (Returned tt, (g', h ++ t)) ∧
    ((g' = g ∧ ¬ discord_up p ∧ (∃ msg, api_logs ERROR t = [msg]) ∧ api_logs INFO t = [])
     ∨ (∃ wh, g' = store_discord_webhook discord_id wh g ∧
              api_logs ERROR t = [] ∧ (∃ msg, api_logs INFO t = [msg]) ∧
              ((∃ ch listed lw,
                  Webhooks ch (inr listed) ∈ t ∧
                  List.find (DiscordBot.own_webhook self) listed = Some lw ∧
                  lw_webhook lw = wh)
               ∨ (∃ ch, CreateWebhook ch "Stoat Bridge" (inr wh) ∈ t)))) ∧
    api_logs WARNING t = [] ∧
    (∀ ch name r, CreateWebhook ch name r ∈ t →
       name = "Stoat Bridge" ∧
       ∃ t1 t2 listed,
         t = t1 ++ [Webhooks ch (inr listed); CreateWebhook ch name r] ++ t2 ∧
         List.find (DiscordBot.own_webhook self) listed = None).
Proof.
  assert (Hquiet : ∀ pre lvl,
            Forall (λ ev, match ev with
                          | GetChannel _ _ | FetchChannel _ _ => True
                          | _ => False
                          end) pre → api_logs lvl pre = []).
  { intros pre lvl. induction 1 as [|ev pre Hev _ IH]; [done|].
    destruct ev; try done; cbn; exact IH. }
  assert (Hnocreate : ∀ pre ch name r,
            Forall (λ ev, match ev with
                          | GetChannel _ _ | FetchChannel _ _ => True
                          | _ => False
                          end) pre → CreateWebhook ch name r ∉ pre).
  { intros pre ch name r Hpre Hin. by apply (proj1 (Forall_forall _ _) Hpre) in Hin. }
  destruct (get_or_fetch_run discord_id p g h)
    as (pre & Hpre & [[channel Hacq] | (e & Hacq & h' & Hdown)]);
    unfold DiscordBot.setup_one; step_Setup; rewrite Hacq.
  2: { eexists g, (pre ++ [ApiLog ERROR _]). rewrite app_assoc. split; [done|].
       split; [|split].
       - left. split; [done|]. split.
         + intros (Hup & _). destruct (Hup h' discord_id). congruence.
         + rewrite ?api_logs_app, ?(Hquiet pre ERROR), ?(Hquiet pre INFO), ?(Hquiet pre WARNING) by done. cbn. repeat case_decide; try done.
           split; [by eexists | done].
       - rewrite ?api_logs_app, ?(Hquiet pre ERROR), ?(Hquiet pre INFO), ?(Hquiet pre WARNING) by done. cbn. by repeat case_decide.
       - intros ch name r [Hin | Hin]%elem_of_app; [by apply Hnocreate in Hin|].
         apply list_elem_of_singleton in Hin. discriminate. }
  rewrite reuse_or_create_run.
  destruct (channel_webhooks p (h ++ pre) channel) as [e|listed] eqn:Hlist.
  { eexists g, (pre ++ [Webhooks channel (inl e); ApiLog ERROR _]).
    rewrite <- !app_assoc. split; [done|]. split; [|split].
    - left. split; [done|]. split.
      + intros (_ & Hup & _). destruct (Hup (h ++ pre) channel). congruence.
      + rewrite ?api_logs_app, ?(Hquiet pre ERROR), ?(Hquiet pre INFO), ?(Hquiet pre WARNING) by done. cbn. repeat case_decide; try done.
        split; [by eexists | done].
    - rewrite ?api_logs_app, ?(Hquiet pre ERROR), ?(Hquiet pre INFO), ?(Hquiet pre WARNING) by done. cbn. by repeat case_decide.
    - intros ch name r [Hin | Hin]%elem_of_app; [by apply Hnocreate in Hin|].
      repeat (apply elem_of_cons in Hin as [Hin | Hin]; [discriminate Hin|]).
      by apply elem_of_nil in Hin. }
  destruct (List.find (DiscordBot.own_webhook self) listed) as [lw|] eqn:Hfind.
  { eexists _, (pre ++ [Webhooks channel (inr listed); ApiLog INFO _]).
    rewrite <- !app_assoc. split; [done|]. split; [|split].
    - right. exists (lw_webhook lw). split; [done|].
      rewrite ?api_logs_app, ?(Hquiet pre ERROR), ?(Hquiet pre INFO), ?(Hquiet pre WARNING) by done. cbn. repeat case_decide; try done.
      split; [done|]. split; [by eexists|]. left. exists channel, listed, lw.
      split; [|done]. apply elem_of_app. right. by left.
    - rewrite ?api_logs_app, ?(Hquiet pre ERROR), ?(Hquiet pre INFO), ?(Hquiet pre WARNING) by done. cbn. by repeat case_decide.
    - intros ch name r [Hin | Hin]%elem_of_app; [by apply Hnocreate in Hin|].
      repeat (apply elem_of_cons in Hin as [Hin | Hin]; [discriminate Hin|]).
      by apply elem_of_nil in Hin. }
  destruct (channel_create_webhook p ((h ++ pre) ++ [Webhooks channel (inr listed)])
              channel "Stoat Bridge") as [e|wh] eqn:Hcreate.
  - eexists g, (pre ++ [Webhooks channel (inr listed);
                        CreateWebhook channel "Stoat Bridge" (inl e); ApiLog ERROR _]).
    rewrite <- !app_assoc. split; [done|]. split; [|split].
    + left. split; [done|]. split.
      * intros (_ & _ & Hup). destruct (Hup ((h ++ pre) ++ [Webhooks channel (inr listed)])
                                          channel "Stoat Bridge"). congruence.
      * rewrite ?api_logs_app, ?(Hquiet pre ERROR), ?(Hquiet pre INFO), ?(Hquiet pre WARNING) by done. cbn. repeat case_decide; try done.
        split; [by eexists | done].
    + rewrite ?api_logs_app, ?(Hquiet pre ERROR), ?(Hquiet pre INFO), ?(Hquiet pre WARNING) by done. cbn. by repeat case_decide.
    + intros ch name r [Hin | Hin]%elem_of_app; [by apply Hnocreate in Hin|].
      apply elem_of_cons in Hin as [Hin | Hin]; [discriminate Hin|].
      apply elem_of_cons in Hin as [Hin | Hin].
      * injection Hin as -> -> ->. split; [done|].
        exists pre, [ApiLog ERROR
                       ("Discord: could not set up webhook for channel "
                          +:+ Py.str_int discord_id +:+ " – " +:+ Py.exc_text e)], listed.
        done.
      * apply list_elem_of_singleton in Hin. discriminate.
  - eexists _, (pre ++ [Webhooks channel (inr listed);
                        CreateWebhook channel "Stoat Bridge" (inr wh); ApiLog INFO _]).
    rewrite <- !app_assoc. split; [done|]. split; [|split].
    + right. exists wh. split; [done|].
      rewrite ?api_logs_app, ?(Hquiet pre ERROR), ?(Hquiet pre INFO), ?(Hquiet pre WARNING) by done. cbn. repeat case_decide; try done.
      split; [done|]. split; [by eexists|]. right. exists channel.
      apply elem_of_app. right. right. by left.
    + rewrite ?api_logs_app, ?(Hquiet pre ERROR), ?(Hquiet pre INFO), ?(Hquiet pre WARNING) by done. cbn. by repeat case_decide.
    + intros ch name r [Hin | Hin]%elem_of_app; [by apply Hnocreate in Hin|].
      apply elem_of_cons in Hin as [Hin | Hin]; [discriminate Hin|].
      apply elem_of_cons in Hin as [Hin | Hin].
      * injection Hin as -> -> ->. split; [done|].
        exists pre, [ApiLog INFO ("Discord: created webhook for channel "
                                    +:+ Py.str_int discord_id)], listed.
        done.
      * apply list_elem_of_singleton in Hin. discriminate.
Qed.

(** What the loop of [_setup_webhooks] does to the registry and to the
    history, whatever the platform answers. *)
Lemma setup_webhooks_loop (self : Discord.Bot) (ids : list Z) (p : platform)
    (g : globals) (h : list api_event) :
  ∃ g' t,
    setup_for ids (DiscordBot.setup_one self) p (g, h) = (Returned tt, (g', h ++ t)) ∧
    same_but_discord_webhooks g g' ∧
    (∀ k, is_Some (discord_webhooks g !! k) → is_Some (discord_webhooks g' !! k)) ∧
    (∀ k wh, discord_webhooks g' !! k = Some wh →
       discord_webhooks g !! k = Some wh ∨
       (k ∈ ids ∧
        ((∃ ch listed lw,
            Webhooks ch (inr listed) ∈ t ∧
            List.find (DiscordBot.own_webhook self) listed = Some lw ∧
            lw_webhook lw = wh)
         ∨ (∃ ch, CreateWebhook ch "Stoat Bridge" (inr wh) ∈ t)))) ∧
    (∀ ch name r, CreateWebhook ch name r ∈ t →
       name = "Stoat Bridge" ∧
       ∃ t1 t2 listed,
         t = t1 ++ [Webhooks ch (inr listed); CreateWebhook ch name r] ++ t2 ∧
         List.find (DiscordBot.own_webhook self) listed = None) ∧
    (length (api_logs INFO t) + length (api_logs ERROR t))%nat = length ids ∧
    api_logs WARNING t = [] ∧
    (discord_up p →
     (∀ k, k ∈ ids → is_Some (discord_webhooks g' !! k)) ∧ api_logs ERROR t = []).
Proof.
  revert g h. induction ids as [|id ids IH]; intros g h.
  - exists g, []. rewrite app_nil_r. split; [done|]. split; [done|]. split; [done|].
    split; [by left|]. split; [by intros ??? ?%elem_of_nil|]. split; [done|].
    split; [done|]. intros _. split; [by intros ? ?%elem_of_nil | done].
  - cbn [setup_for]. step_Setup.
    destruct (setup_one_step self id p g h) as (g1 & t1 & -> & Hstep & Hwarn1 & Hcreate1).
    destruct (IH g1 (h ++ t1))
      as (g' & t & -> & Hsame & Hmono & Hprov & Hcreate & Hlen & Hwarn & Hup).
    exists g', (t1 ++ t). rewrite <- app_assoc. split; [done|].
    assert (same_but_discord_webhooks g g1 ∧
            (∀ k, is_Some (discord_webhooks g !! k) → is_Some (discord_webhooks g1 !! k)))
      as [Hsame1 Hmono1].
    { destruct Hstep as [(-> & _) | (wh & -> & _)]; [done|]. split; [done|].
      intros k Hk. cbn. apply lookup_insert_is_Some'. by right. }
    split; [|split; [|split; [|split; [|split; [|split]]]]].
    + destruct Hsame1 as (? & ? & ? & ?), Hsame as (? & ? & ? & ?).
      repeat split; congruence.
    + intros k Hk. by apply Hmono, Hmono1.
    + intros k wh [Hk | (Hk & Hfrom)]%Hprov.
      * destruct Hstep as [(-> & _) | (wh1 & -> & _ & _ & Hfrom)]; [by left|].
        cbn in Hk. apply lookup_insert_Some in Hk as [[<- <-] | [_ Hk]]; [|by left].
        right. split; [by left|].
        destruct Hfrom as [(ch & listed & lw & Hin & Hfind & Hlw) | (ch & Hin)].
        -- left. exists ch, listed, lw. split; [by apply elem_of_app; left | done].
        -- right. exists ch. by apply elem_of_app; left.
      * right. split; [by right|].
        destruct Hfrom as [(ch & listed & lw & Hin & Hfind & Hlw) | (ch & Hin)].
        -- left. exists ch, listed, lw. split; [by apply elem_of_app; right | done].
        -- right. exists ch. by apply elem_of_app; right.
    + intros ch name r [Hin | Hin]%elem_of_app.
      * destruct (Hcreate1 _ _ _ Hin) as (-> & a & b & listed & -> & Hfind).
        split; [done|]. exists a, (b ++ t), listed. by rewrite <- !app_assoc.
      * destruct (Hcreate _ _ _ Hin) as (-> & a & b & listed & -> & Hfind).
        split; [done|]. exists (t1 ++ a), b, listed. by rewrite <- !app_assoc.
    + rewrite !api_logs_app, !length_app. cbn [length]. rewrite <- Hlen.
      destruct Hstep as [(_ & _ & [m ->] & ->) | (wh & _ & -> & [m ->] & _)]; cbn; lia.
    + by rewrite api_logs_app, Hwarn1, Hwarn.
    + intros Hp. destruct (Hup Hp) as [Hall Hnoerr].
      destruct Hstep as [(_ & Hdown & _) | (wh & -> & Herr1 & _)]; [done|]. split.
      * intros k [-> | Hk]%elem_of_cons; [|by apply Hall].
        apply Hmono. cbn. rewrite lookup_insert_eq. by eexists.
      * by rewrite api_logs_app, Herr1, Hnoerr.
Qed.

(** X14: [_setup_webhooks] never raises and changes nothing but the
    webhook registry.  It never removes an entry, and an entry that is new
    or changed stands under a configured Discord identifier and holds
    either the first webhook of a listing that is the bot's own or a
    webhook the routine has just created under the name [Stoat Bridge].
    It writes one record per configured identifier, at level INFO or
    ERROR, never a warning. *)
Theorem setup_webhooks_registry (self : Discord.Bot) (cfg : config) (p : platform)
    (g : globals) (h : list api_event) :
  ∃ g' t,
    setup_run (DiscordBot._setup_webhooks self cfg) p g h
      = (Returned tt, (g', h ++ t)) ∧
    same_but_discord_webhooks g g' ∧
    (∀ k, is_Some (discord_webhooks g !! k) → is_Some (discord_webhooks g' !! k)) ∧
    (∀ k wh, discord_webhooks g' !! k = Some wh →
       discord_webhooks g !! k = Some wh ∨
       (k ∈ DISCORD_CHANNEL_IDS cfg ∧
        ((∃ ch listed lw,
            Webhooks ch (inr listed) ∈ t ∧
            List.find (DiscordBot.own_webhook self) listed = Some lw ∧
            lw_user lw = Some (Discord.user_id self) ∧
            lw_webhook lw = wh)
         ∨ (∃ ch, CreateWebhook ch "Stoat Bridge" (inr wh) ∈ t)))) ∧
    (length (api_logs INFO t) + length (api_logs ERROR t))%nat
      = length (DISCORD_CHANNEL_IDS cfg) ∧
    api_logs WARNING t = [].
Proof.
  destruct (setup_webhooks_loop self (DISCORD_CHANNEL_IDS cfg) p g h)
    as (g' & t & Hrun & Hsame & Hmono & Hprov & _ & Hlen & Hwarn & _).
  exists g', t. split; [exact Hrun|]. split; [done|]. split; [done|].
  split; [|done].
  intros k wh [? | (Hk & [(ch & listed & lw & Hin & Hfind & Hlw) | Hcreated])]%Hprov;
    [by left | |].
  - right. split; [done|]. left. exists ch, listed, lw.
    split; [done|]. split; [done|]. split; [|done].
    apply find_some in Hfind as [_ Hown]. by apply bool_decide_eq_true in Hown.
  - right. split; [done|]. by right.
Qed.

(** X15: [_setup_webhooks] creates a webhook only under the name
    [Stoat Bridge], and only right after a listing of the same channel in
    which no webhook was the bot's own: it never adds a second webhook to
    a channel that showed one of its own. *)
Theorem setup_webhooks_creates_only_when_none (self : Discord.Bot) (cfg : config)
    (p : platform) (g : globals) (h : list api_event) :
  ∃ g' t,
    setup_run (DiscordBot._setup_webhooks self cfg) p g h
      = (Returned tt, (g', h ++ t)) ∧
    ∀ ch name r, CreateWebhook ch name r ∈ t →
      name = "Stoat Bridge" ∧
      ∃ t1 t2 listed,
        t = t1 ++ [Webhooks ch (inr listed); CreateWebhook ch name r] ++ t2 ∧
        ∀ lw, lw ∈ listed → lw_user lw ≠ Some (Discord.user_id self).
Proof.
  destruct (setup_webhooks_loop self (DISCORD_CHANNEL_IDS cfg) p g h)
    as (g' & t & Hrun & _ & _ & _ & Hcreate & _).
  exists g', t. split; [exact Hrun|].
  intros ch name r (-> & t1 & t2 & listed & -> & Hfind)%Hcreate. split; [done|].
  exists t1, t2, listed. split; [done|].
  intros lw Hlw%list_elem_of_In Hown.
  pose proof (find_none _ _ Hfind lw Hlw) as Hno.
  unfold DiscordBot.own_webhook in Hno. by apply bool_decide_eq_false in Hno.
Qed.

Lemma setup_webhooks_creates_only_when_none_witness :
  ∃ t1 t2 listed,
    (setup_run (DiscordBot._setup_webhooks Samples.discord_bot Samples2.cfg)
       Samples2.platform_up Samples2.loaded []).2.2
    = t1 ++ [Webhooks (mkDiscordChannel 222) (inr listed);
             CreateWebhook (mkDiscordChannel 222) "Stoat Bridge"
               (inr (mkWebhook 1222 "Stoat Bridge"))] ++ t2 ∧
    ∀ lw, lw ∈ listed → lw_user lw ≠ Some 500.
Proof.
  destruct (setup_webhooks_creates_only_when_none Samples.discord_bot Samples2.cfg
              Samples2.platform_up Samples2.loaded []) as (g' & t & Hrun & Hcreate).
  rewrite Hrun. cbn [snd app].
  apply (Hcreate (mkDiscordChannel 222) "Stoat Bridge"
           (inr (mkWebhook 1222 "Stoat Bridge"))).
  injection Hrun as _ <-. apply (list_elem_of_lookup_2 _ 6%nat). by vm_compute.
Defined.

(** X16: when every call succeeds, [_setup_webhooks] leaves a registry
    entry for every configured Discord identifier and writes no error
    record. *)
Theorem setup_webhooks_all_registered (self : Discord.Bot) (cfg : config)
    (p : platform) (g : globals) (h : list api_event) :
  discord_up p →
  ∃ g' t,
    setup_run (DiscordBot._setup_webhooks self cfg) p g h
      = (Returned tt, (g', h ++ t)) ∧
    (∀ k, k ∈ DISCORD_CHANNEL_IDS cfg → is_Some (discord_webhooks g' !! k)) ∧
    api_logs ERROR t = [] ∧
    length (api_logs INFO t) = length (DISCORD_CHANNEL_IDS cfg).
Proof.
  intros Hp.
  destruct (setup_webhooks_loop self (DISCORD_CHANNEL_IDS cfg) p g h)
    as (g' & t & Hrun & _ & _ & _ & _ & Hlen & _ & Hup).
  destruct (Hup Hp) as [Hall Hnoerr].
  exists g', t. split; [exact Hrun|]. split; [done|]. split; [done|].
  rewrite Hnoerr in Hlen. cbn [length] in Hlen. lia.
Qed.

Lemma platform_up_discord_up : discord_up Samples2.platform_up.
Proof.
  split; [|split].
  - intros h id. by eexists.
  - intros h ch. cbn. destruct (dc_id ch =? 111)%Z; by eexists.
  - intros h ch name. by eexists.
Qed.

Lemma setup_webhooks_all_registered_witness :
  ∃ g' t,
    setup_run (DiscordBot._setup_webhooks Samples.discord_bot Samples2.cfg)
      Samples2.platform_up Samples2.loaded [] = (Returned tt, (g', [] ++ t)) ∧
    (∀ k, k ∈ [111; 222] → is_Some (discord_webhooks g' !! k)) ∧
    api_logs ERROR t = [] ∧ length (api_logs INFO t) = 2%nat.
Proof.
  apply (setup_webhooks_all_registered Samples.discord_bot Samples2.cfg
           Samples2.platform_up Samples2.loaded []).
  apply platform_up_discord_up.
Defined.

(** ** From setup to relay *)

(** X17: once the module has loaded and [StoatBot.on_ready] has run on a
    platform where every fetch succeeds, no Discord message is dropped
    for a target that is not ready: every message in a configured Discord
    channel that passes the filters is relayed with exactly one outbound
    call and without a warning. *)
Theorem ready_after_stoat_on_ready (self : Stoat.Client) (cfg : config)
    (p : platform) (g : globals) (h : list api_event) :
  length (DISCORD_CHANNEL_IDS cfg) = length (STOAT_CHANNEL_IDS cfg) →
  load_module (DISCORD_CHANNEL_IDS cfg) (STOAT_CHANNEL_IDS cfg) = Some g →
  stoat_up p →
  ∃ g' h',
    setup_run (StoatBot.on_ready self cfg) p g h = (Returned tt, (g', h')) ∧
    ∀ bot message net,
      ¬ dropped_as_own_webhook g' message →
      Discord.content message ≠ "" →
      Discord.channel_id message ∈ DISCORD_CHANNEL_IDS cfg →
      (∃ c, sends (trace_of (run (on_message bot message) net g')) = [c]) ∧
      logs WARNING (trace_of (run (on_message bot message) net g')) = [].
Proof.
  intros Hlen Hload Hup. rewrite stoat_on_ready_run.
  destruct (stoat_fetch_loop (STOAT_CHANNEL_IDS cfg) p g
              (h ++ [ApiLog INFO ("Stoat: connected as " +:+ str_me p)]))
    as (g' & t & -> & Hsame & Hnew & Hold & Hok & Hall & Hplat & Herr & _ & _).
  eexists g', _. split; [done|]. intros bot message net Hkeep Htext Hchan.
  destruct (loaded_pair_table _ _ g Hlen Hload) as (Hd2s & _ & Hdom & _).
  apply Hdom in Hchan as [s Hs].
  assert (is_Some (stoat_channels g' !! s)) as [ch Hch].
  { destruct (Hd2s _ _ Hs) as (i & _ & Hi%list_elem_of_lookup_2).
    destruct (Hall s Hi) as [r Hr]. destruct (Hplat _ _ Hr) as [h1 ->].
    destruct (Hup h1 s) as [ch Hch]. rewrite Hch in Hr. by apply (Hok s ch). }
  assert (resolve_to_stoat g' (Discord.channel_id message) = Some s) as Hs'.
  { unfold resolve_to_stoat in *. destruct Hsame as (_ & _ & -> & _). done. }
  rewrite (discord_run_relay bot message net g' s Hkeep Hs' Htext ch Hch).
  destruct (echo_reads_quiet message) as (Hq & Hl & _).
  cbn [trace_of snd]. rewrite !sends_app, !logs_app, Hq, Hl.
  destruct (net _); cbn; split; by eauto.
Qed.

Lemma ready_after_stoat_on_ready_witness :
  ∃ g' h',
    setup_run (StoatBot.on_ready Samples.stoat_bot Samples2.cfg)
      Samples2.platform_up Samples2.loaded [] = (Returned tt, (g', h')) ∧
    ∃ c, sends (trace_of (run (on_message Samples.discord_bot
                                 (Samples.discord_msg None 222 "hi" Samples.bob))
                            Samples.net_down g')) = [c].
Proof.
  destruct (ready_after_stoat_on_ready Samples.stoat_bot Samples2.cfg
              Samples2.platform_up Samples2.loaded [])
    as (g' & h' & Hrun & Hready).
  - reflexivity.
  - by vm_compute.
  - intros h stoat_id. by eexists.
  - exists g', h'. split; [exact Hrun|].
    apply (Hready Samples.discord_bot (Samples.discord_msg None 222 "hi" Samples.bob)
             Samples.net_down).
    + by intros (w & [=] & _).
    + discriminate.
    + cbn. apply elem_of_cons. right. by left.
Defined.

(** X18: once the module has loaded and [_setup_webhooks] has run on a
    platform where every call succeeds, no Stoat message is dropped for a
    target that is not ready: every message in a configured Stoat channel
    that passes the filters is relayed with exactly one outbound call and
    without a warning. *)
Theorem ready_after_setup_webhooks (self : Discord.Bot) (cfg : config)
    (p : platform) (g : globals) (h : list api_event) :
  length (DISCORD_CHANNEL_IDS cfg) = length (STOAT_CHANNEL_IDS cfg) →
  load_module (DISCORD_CHANNEL_IDS cfg) (STOAT_CHANNEL_IDS cfg) = Some g →
  discord_up p →
  ∃ g' h',
    setup_run (DiscordBot._setup_webhooks self cfg) p g h = (Returned tt, (g', h')) ∧
    ∀ bot event net,
      Stoat.author_id (Stoat.message event) ≠ Stoat.me_id bot →
      Stoat.content (Stoat.message event) ≠ "" →
      Stoat.channel_id (Stoat.message event) ∈ STOAT_CHANNEL_IDS cfg →
      (∃ c, sends (trace_of (run (on_message_create bot event) net g')) = [c]) ∧
      logs WARNING (trace_of (run (on_message_create bot event) net g')) = [].
Proof.
  intros Hlen Hload Hp.
  destruct (setup_webhooks_loop self (DISCORD_CHANNEL_IDS cfg) p g h)
    as (g' & t & Hrun & Hsame & _ & _ & _ & _ & _ & Hup).
  destruct (Hup Hp) as [Hall _].
  exists g', (h ++ t). split; [exact Hrun|]. intros bot event net Hself Htext Hchan.
  destruct (loaded_pair_table _ _ g Hlen Hload) as (_ & Hs2d & _ & Hdom).
  apply Hdom in Hchan as [d Hd].
  assert (is_Some (discord_webhooks g' !! d)) as [wh Hwh].
  { destruct (Hs2d _ _ Hd) as (i & Hi%list_elem_of_lookup_2 & _). by apply Hall. }
  assert (STOAT_TO_DISCORD g' !! Stoat.channel_id (Stoat.message event) = Some d) as Hd'.
  { unfold resolve_to_discord in Hd. destruct Hsame as (_ & -> & _). done. }
  rewrite (stoat_run_relay bot event net g' d Hself Hd' Htext wh Hwh).
  cbn [trace_of snd]. rewrite !sends_app, !logs_app.
  destruct (net _); cbn; split; by eauto.
Qed.

Lemma ready_after_setup_webhooks_witness :
  ∃ g' h',
    setup_run (DiscordBot._setup_webhooks Samples.discord_bot Samples2.cfg)
      Samples2.platform_up Samples2.loaded [] = (Returned tt, (g', h')) ∧
    ∃ c, sends (trace_of (run (on_message_create Samples.stoat_bot
                                 (Samples.stoat_msg "u1" "bbb" "hello"))
                            Samples.net_ok g')) = [c].
Proof.
  destruct (ready_after_setup_webhooks Samples.discord_bot Samples2.cfg
              Samples2.platform_up Samples2.loaded [])
    as (g' & h' & Hrun & Hready).
  - reflexivity.
  - by vm_compute.
  - apply platform_up_discord_up.
  - exists g', h'. split; [exact Hrun|].
    apply (Hready Samples.stoat_bot (Samples.stoat_msg "u1" "bbb" "hello") Samples.net_ok).
    + discriminate.
    + discriminate.
    + cbn. apply elem_of_cons. right. by left.
Defined.

(** ** The ids of the registry *)

(** One round of the loop stores nothing but a webhook the platform has
    listed or created. *)
Lemma setup_one_keeps_ids_nonzero (self : Discord.Bot) (discord_id : Z)
    (p : platform) (g : globals) (h : list api_event) :
  platform_ids_nonzero p → registry_ids_nonzero g →
  registry_ids_nonzero (DiscordBot.setup_one self discord_id p (g, h)).2.1.
Proof.
  intros [Hlisted Hcreated] Hg.
  assert (Hstore : ∀ wh, wh_id wh ≠ 0 →
            registry_ids_nonzero (store_discord_webhook discord_id wh g)).
  { intros wh Hwh k wh' Hk. cbn in Hk.
    apply lookup_insert_Some in Hk as [[_ <-] | [_ Hk]]; [done | by apply (Hg k)]. }
  destruct (get_or_fetch_run discord_id p g h)
    as (pre & _ & [[channel Hacq] | (e & Hacq & _)]);
    unfold DiscordBot.setup_one; step_Setup; rewrite Hacq; [|done].
  rewrite reuse_or_create_run.
  destruct (channel_webhooks p (h ++ pre) channel) as [e|listed] eqn:Hlist; [done|].
  destruct (List.find (DiscordBot.own_webhook self) listed) as [lw|] eqn:Hfind.
  - apply Hstore. apply find_some in Hfind as [Hin _].
    apply (Hlisted _ _ _ _ Hlist). by apply list_elem_of_In.
  - destruct (channel_create_webhook p ((h ++ pre) ++ [Webhooks channel (inr listed)])
                channel "Stoat Bridge") as [e|wh] eqn:Hcreate; [done|].
    apply Hstore. by apply (Hcreated _ _ _ _ Hcreate).
Qed.

(** The loop of [_setup_webhooks] keeps the registry free of the id 0. *)
Lemma setup_loop_keeps_ids_nonzero (self : Discord.Bot) (ids : list Z)
    (p : platform) (g : globals) (h : list api_event) :
  platform_ids_nonzero p → registry_ids_nonzero g →
  registry_ids_nonzero (setup_for ids (DiscordBot.setup_one self) p (g, h)).2.1.
Proof.
  intros Hp. revert g h. induction ids as [|id ids IH]; intros g h Hg; [done|].
  cbn [setup_for]. step_Setup.
  pose proof (setup_one_keeps_ids_nonzero self id p g h Hp Hg) as Hstep.
  destruct (setup_one_step self id p g h) as (g1 & t1 & Hrun & _).
  rewrite Hrun in Hstep |- *. by apply IH.
Qed.

(** X20: [_setup_webhooks] keeps the webhook registry free of the id 0:
    on a platform that lists and creates no webhook of id 0, a registry
    without such a webhook, the empty registry of a freshly loaded module
    among them, is still without one after the routine. *)
Theorem setup_webhooks_keeps_ids_nonzero (self : Discord.Bot) (cfg : config)
    (p : platform) (g : globals) (h : list api_event) :
  platform_ids_nonzero p → registry_ids_nonzero g →
  registry_ids_nonzero
    (setup_run (DiscordBot._setup_webhooks self cfg) p g h).2.1.
Proof. apply setup_loop_keeps_ids_nonzero. Qed.

Lemma platform_fixed_ids_nonzero : platform_ids_nonzero Samples2.platform_fixed.
Proof.
  split.
  - intros h ch listed lw Hlisted Hin. cbn in Hlisted.
    destruct (dc_id ch =? 111)%Z; injection Hlisted as <-;
      repeat (apply elem_of_cons in Hin as [-> | Hin]; [discriminate|]);
      by apply elem_of_nil in Hin.
  - intros h ch name wh [= <-]. discriminate.
Qed.

Lemma loaded_ids_nonzero : registry_ids_nonzero Samples2.loaded.
Proof.
  intros k wh Hk. change ((∅ : gmap Z Webhook) !! k = Some wh) in Hk.
  by rewrite lookup_empty in Hk.
Qed.

Lemma setup_webhooks_keeps_ids_nonzero_witness :
  registry_ids_nonzero
    (setup_run (DiscordBot._setup_webhooks Samples.discord_bot Samples2.cfg)
       Samples2.platform_fixed Samples2.loaded []).2.1.
Proof.
  apply (setup_webhooks_keeps_ids_nonzero Samples.discord_bot Samples2.cfg
           Samples2.platform_fixed Samples2.loaded []).
  - apply platform_fixed_ids_nonzero.
  - apply loaded_ids_nonzero.
Defined.

(** X21: the bridge does not relay what it has posted itself on Discord.
    After [_setup_webhooks] has run on a platform that hands out no
    webhook of id 0, starting from a registry without one, a Discord
    message that carries the id of a webhook in the registry produces no
    outbound call. *)
Theorem own_webhooks_dropped_after_setup (self : Discord.Bot) (cfg : config)
    (p : platform) (g : globals) (h : list api_event) :
  platform_ids_nonzero p → registry_ids_nonzero g →
  ∀ bot message net w,
    Discord.webhook_id message = Some w →
    registered_webhook_id
      (setup_run (DiscordBot._setup_webhooks self cfg) p g h).2.1 w →
    sends (trace_of (run (on_message bot message) net
                       (setup_run (DiscordBot._setup_webhooks self cfg) p g h).2.1))
      = [].
Proof.
  intros Hp Hg bot message net w Hw Hreg.
  pose proof (setup_loop_keeps_ids_nonzero self (DISCORD_CHANNEL_IDS cfg) p g h Hp Hg)
    as Hdomain.
  change (setup_for (DISCORD_CHANNEL_IDS cfg) (DiscordBot.setup_one self) p (g, h))
    with (setup_run (DiscordBot._setup_webhooks self cfg) p g h) in Hdomain.
  rewrite discord_run_own_webhook; [done|]. exists w. split; [done|]. split; [|done].
  destruct Hreg as (k & wh & Hk & <-). by apply (Hdomain k wh).
Qed.

Lemma own_webhooks_dropped_after_setup_witness :
  sends (trace_of (run (on_message Samples.discord_bot
                          (Samples.discord_msg (Some 1222) 222 "relayed" Samples.bob))
                     Samples.net_ok
                     (setup_run (DiscordBot._setup_webhooks Samples.discord_bot
                                   Samples2.cfg)
                        Samples2.platform_fixed Samples2.loaded []).2.1))
    = [].
Proof.
  apply (own_webhooks_dropped_after_setup Samples.discord_bot Samples2.cfg
           Samples2.platform_fixed Samples2.loaded []
           platform_fixed_ids_nonzero loaded_ids_nonzero
           Samples.discord_bot
           (Samples.discord_msg (Some 1222) 222 "relayed" Samples.bob)
           Samples.net_ok 1222 eq_refl).
  exists 222, (mkWebhook 1222 "Stoat Bridge"). split; [by vm_compute | reflexivity].
Defined.
